(** * Credit-Risk-Predictor: predict.py, api.py and app.py in Rocq

    A shallow embedding of the feature encoder, the risk tiers, the background
    sampler, the attribution pipeline and the two request handlers, followed by
    the properties the specification states about them.

    Conventions.
    - A Python [float] is a binary64 number: Rocq's primitive [float].
    - A Python [str] is the string of its UTF-8 bytes; [startswith],
      [endswith] and [==] read the same on bytes as on code points.
    - A Python [dict] keyed by strings is a [gmap string _]; a dict whose
      iteration order matters (numeric_map) is an association list.
    - A call that can raise returns a [result]; [let*] sequences such calls
      the way Python does, the first exception ending the computation.
    - What the program takes from its libraries and its environment (the
      interpreter's string-to-float parser, [repr], [str.upper] and the
      wording of its exceptions, numpy's generator, the order pandas leaves
      equal sort keys in, the shap package, the unpickled estimator) is a
      field of [Env] or of [Artifact]: the theorems hold for every such
      environment. *)

From Stdlib Require Import Floats ZArith Lia Bool Ascii String List.
From Stdlib Require Import Sorting.Sorted Sorting.Permutation.
From stdpp Require Import base option gmap strings list sorting.

#[local] Set Warnings "-inexact-float,-register-all,-clear-no-such-hyp".
#[local] Open Scope string_scope.

(** ** Python values and exceptions *)

(** What [json] decoding hands to the handlers, and what the UI and the
    sampler put into a record. *)
Inductive value :=
| VNone
| VBool (b : bool)
| VInt (z : Z)
| VFloat (f : float)
| VStr (s : string)
| VList (l : list value)
| VDict (d : gmap string value).

(** A Raw Input Record. *)
Abbreviation record := (gmap string value).

(** Exceptions. Every handler of the program is [except Exception]: no
    class is told from another, and what the program reads of an exception
    is [str(e)]. A constructor names the class and holds what the message is
    about; the exceptions the program words itself, and those of the
    libraries it loads, hold their text. *)
Inductive value_error :=
| NotAFloat (s : string)      (* float(s) on text that is no number *)
| NothingToConcatenate        (* pd.concat of no frame *)
| UnequalLengths.             (* pd.DataFrame of columns of unequal length *)

Inductive index_error :=
| OfArray (axis index size : nat)   (* a numpy array *)
| OfList (index size : nat).        (* a Python list *)

Inductive exn :=
| TypeError (v : value)             (* float(v) *)
| ValueError (why : value_error)
| OverflowError (z : Z)             (* float(z) *)
| AttributeError (v : value)        (* v.get *)
| IndexError (why : index_error)
| KeyError (key : string)
| FileNotFoundError (text : string)
| LibraryError (text : string)
| RuntimeError (text : string).

Inductive result (A : Type) :=
| Ok (a : A)
| Raise (e : exn).
Arguments Ok {A} a.
Arguments Raise {A} e.

Definition bind {A B} (c : result A) (k : A -> result B) : result B :=
  match c with
  | Ok a => k a
  | Raise e => Raise e
  end.

Notation "'let*' x ':=' c 'in' k" := (bind c (fun x => k))
  (at level 10, x pattern, c at level 100, k at level 200).

Fixpoint mapM {A B} (f : A -> result B) (l : list A) : result (list B) :=
  match l with
  | [] => Ok []
  | a :: l' => let* b := f a in let* bs := mapM f l' in Ok (b :: bs)
  end.

(** [try: c  except Exception as e: h e] *)
Definition try_except {A} (c : result A) (h : exn -> result A) : result A :=
  match c with
  | Ok a => Ok a
  | Raise e => h e
  end.

(** ** Strings *)

Fixpoint startswith (s p : string) : bool :=
  match p, s with
  | EmptyString, _ => true
  | String a p', String b s' => Ascii.eqb a b && startswith s' p'
  | String _ _, EmptyString => false
  end.

Fixpoint endswith (s suf : string) : bool :=
  String.eqb s suf ||
  match s with
  | EmptyString => false
  | String _ s' => endswith s' suf
  end.

(** ** Floats *)

(** [float(n)] for a Python int: round to nearest even, OverflowError when
    the result does not fit. *)
Definition float_of_int (z : Z) : result float :=
  let f := SF2Prim (binary_normalize prec emax z 0 false) in
  if is_infinity f then Raise (OverflowError z) else Ok f.

(** [np.clip(x, lo, hi)]: a NaN passes through. *)
Definition clip (x lo hi : float) : float :=
  if (x <? lo)%float then lo else if (hi <? x)%float then hi else x.

(** ** The environment: interpreter built-ins, numpy, shap *)

Record DataFrame := {
  columns : list string;
  rows : list (list float)
}.

(** [shap_values] is a list of per-class arrays or one array; arrays are
    kept flattened, as [reshape(-1)] leaves them. *)
Inductive shap_out :=
| SvList (per_class : list (list float))
| SvArray (flat : list float).

(** The object [joblib.load] returns. *)
Record Booster := {
  booster_feature_names : option (list string)
}.

Record Artifact := {
  feature_names_in_ : option (list string);
  get_booster : result (option Booster);
  model_predict_proba : DataFrame -> result (list (list float));
  model_predict : DataFrame -> result (list Z)
}.

(** The shap package: [TreeExplainer(model, data=background, ...)] with its
    [shap_values(X)] and [expected_value], and [Explainer(model, X)(X)] with
    its [values] and [base_values]; the second component is raveled. *)
Record ShapLib := {
  tree_explainer : Artifact -> DataFrame -> DataFrame -> result (shap_out * list float);
  generic_explainer : Artifact -> DataFrame -> DataFrame -> result (shap_out * list float)
}.

(** A row of the frame [explain_shap] returns. *)
Record ShapRow := {
  feature : string;
  shap_value : float;
  abs_shap : float
}.

Class Env := {
  (** [float(s)] on a string: [None] is ValueError. *)
  float_of_str : string -> option float;
  (** [str(v)] on a value that is not a string. *)
  repr : value -> string;
  (** [s.upper()], which knows all of Unicode. *)
  upper : string -> string;
  (** [str(e)] for an exception the interpreter, numpy or pandas raised. *)
  exception_text : exn -> string;
  (** [sort_values] sorts with numpy's quicksort, which is not stable:
      [sorted_after df r r'] tells whether, in sorting the frame [df], row
      [r] ends up after row [r'] of the same key. *)
  sorted_after : list ShapRow -> ShapRow -> ShapRow -> bool;
  (** [np.random.default_rng(seed)] and the two draws the sampler makes. *)
  rng_state : Type;
  default_rng : Z -> rng_state;
  rng_normal : float -> float -> rng_state -> float * rng_state;
  rng_choice : list string -> rng_state -> string * rng_state;
  (** The module [shap], [None] when its import failed. *)
  shap : option ShapLib;
  (** [os.path.exists] and [joblib.load]. *)
  path_exists : string -> bool;
  joblib_load : string -> result Artifact
}.

Section Program.
Context `{E : Env}.

(** [float(v)] *)
Definition py_float (v : value) : result float :=
  match v with
  | VFloat f => Ok f
  | VInt z => float_of_int z
  | VBool b => Ok (if b then 1%float else 0%float)
  | VStr s =>
      match float_of_str s with
      | Some f => Ok f
      | None => Raise (ValueError (NotAFloat s))
      end
  | VNone | VList _ | VDict _ => Raise (TypeError v)
  end.

(** [str(v)] *)
Definition py_str (v : value) : string :=
  match v with
  | VStr s => s
  | _ => repr v
  end.

(** [str(e)] *)
Definition str_exn (e : exn) : string :=
  match e with
  | FileNotFoundError text | LibraryError text | RuntimeError text => text
  | _ => exception_text e
  end.

(** [bool(v)], as [not data] reads it. *)
Definition truthy (v : value) : bool :=
  match v with
  | VNone => false
  | VBool b => b
  | VInt z => negb (z =? 0)%Z
  | VFloat f => negb (f =? 0)%float
  | VStr s => negb (String.eqb s "")
  | VList l => match l with [] => false | _ :: _ => true end
  | VDict d => negb (bool_decide (d = ∅))
  end.

(** [inputs.get(key, default)] *)
Definition get (inputs : record) (key : string) (dflt : value) : value :=
  default dflt (inputs !! key).

(** [d[key]] *)
Definition getitem {A} (d : gmap string A) (key : string) : result A :=
  match d !! key with
  | Some a => Ok a
  | None => Raise (KeyError key)
  end.

(** ** class CreditRiskModel *)

Definition MODEL_FILENAME : string := "xgboost_model.joblib".

Record CreditRiskModel := {
  model : Artifact;
  feature_names : list string
}.

(** The schema [_infer_feature_names] ends on when the artifact names none. *)
Definition default_features : list string := [
  "person_age";
  "person_income";
  "person_emp_length";
  "loan_amnt";
  "loan_int_rate";
  "loan_percent_income";
  "cb_person_cred_hist_length";
  "person_home_ownership_MORTGAGE";
  "person_home_ownership_OWN";
  "person_home_ownership_RENT";
  "person_home_ownership_OTHER";
  "loan_intent_DEBTCONSOLIDATION";
  "loan_intent_EDUCATION";
  "loan_intent_HOMEIMPROVEMENT";
  "loan_intent_MEDICAL";
  "loan_intent_PERSONAL";
  "loan_intent_VENTURE";
  "loan_grade_B";
  "loan_grade_C";
  "loan_grade_D";
  "loan_grade_E";
  "loan_grade_F";
  "loan_grade_G";
  "cb_person_default_on_file_Y"
].

Definition _infer_feature_names (a : Artifact) : list string :=
  match feature_names_in_ a with
  | Some names => names
  | None =>
      match get_booster a with
      | Ok (Some {| booster_feature_names := Some names |}) => names
      | _ => default_features
      end
  end.

(** [CreditRiskModel(model_path)] *)
Definition __init__ (model_path : string) : result CreditRiskModel :=
  if negb (path_exists model_path) then
    Raise (FileNotFoundError ("Model file not found: " +:+ model_path))
  else
    let* a := joblib_load model_path in
    Ok {| model := a; feature_names := _infer_feature_names a |}.

Definition ideal_defaults : record :=
  list_to_map [
    ("person_age", VInt 35);
    ("person_income", VInt 85000);
    ("person_emp_length", VInt 8);
    ("loan_amnt", VInt 10000);
    ("loan_int_rate", VFloat 11.0);
    ("loan_percent_income", VFloat 0.15);
    ("cb_person_cred_hist_length", VInt 10);
    ("person_home_ownership", VStr "OWN");
    ("loan_intent", VStr "DEBTCONSOLIDATION");
    ("loan_grade", VStr "A");
    ("cb_person_default_on_file", VStr "N")
  ].

(** [groups[key].append(col)] *)
Definition group_append (key col : string) (groups : gmap string (list string))
  : gmap string (list string) :=
  alter (fun cols => (cols ++ [col])%list) key groups.

Definition _one_hot_columns (self : CreditRiskModel) : gmap string (list string) :=
  let groups : gmap string (list string) :=
    list_to_map [
      ("person_home_ownership", []);
      ("loan_intent", []);
      ("loan_grade", []);
      ("cb_person_default_on_file", [])
    ] in
  foldl (fun groups col =>
    if startswith col "person_home_ownership_" then
      group_append "person_home_ownership" col groups
    else if startswith col "loan_intent_" then
      group_append "loan_intent" col groups
    else if startswith col "loan_grade_" then
      group_append "loan_grade" col groups
    else if startswith col "cb_person_default_on_file_" then
      group_append "cb_person_default_on_file" col groups
    else groups) groups (feature_names self).

(** [for col in cols: if col.endswith(f"_{val}"): data[col] = 1.0] *)
Definition set_matching (cols : list string) (val : string)
    (data : gmap string float) : gmap string float :=
  foldl (fun data col =>
    if endswith col ("_" +:+ val) then <[col := 1%float]> data else data)
    data cols.

(** [for col in cols: if col.endswith("_Y") and cb_val == "Y": data[col] = 1.0] *)
Definition set_default_flag (cols : list string) (cb_val : string)
    (data : gmap string float) : gmap string float :=
  foldl (fun data col =>
    if endswith col "_Y" && String.eqb cb_val "Y" then <[col := 1%float]> data
    else data)
    data cols.

(** [for k, v in numeric_map.items(): if k in data: data[k] = v] *)
Definition assign_numeric (numeric_map : list (string * float))
    (data : gmap string float) : gmap string float :=
  foldl (fun data '(k, v) =>
    if bool_decide (is_Some (data !! k)) then <[k := v]> data else data)
    data numeric_map.

Definition build_feature_vector (self : CreditRiskModel) (inputs : record)
  : result DataFrame :=
  let data : gmap string float :=
    list_to_map (map (fun name => (name, 0%float)) (feature_names self)) in
  let* person_age := py_float (get inputs "person_age" (VInt 0)) in
  let* person_income := py_float (get inputs "person_income" (VInt 0)) in
  let* person_emp_length := py_float (get inputs "person_emp_length" (VInt 0)) in
  let* loan_amnt := py_float (get inputs "loan_amnt" (VInt 0)) in
  let* loan_int_rate := py_float (get inputs "loan_int_rate" (VInt 0)) in
  let* loan_percent_income :=
    py_float (get inputs "loan_percent_income" (VInt 0)) in
  let* cb_person_cred_hist_length :=
    py_float (get inputs "cb_person_cred_hist_length" (VInt 0)) in
  let numeric_map := [
    ("person_age", person_age);
    ("person_income", person_income);
    ("person_emp_length", person_emp_length);
    ("loan_amnt", loan_amnt);
    ("loan_int_rate", loan_int_rate);
    ("loan_percent_income", loan_percent_income);
    ("cb_person_cred_hist_length", cb_person_cred_hist_length)
  ] in
  let data := assign_numeric numeric_map data in
  let groups := _one_hot_columns self in
  let pho_val := upper (py_str (get inputs "person_home_ownership" (VStr ""))) in
  let data :=
    set_matching (default [] (groups !! "person_home_ownership")) pho_val data in
  let li_val := upper (py_str (get inputs "loan_intent" (VStr ""))) in
  let data := set_matching (default [] (groups !! "loan_intent")) li_val data in
  let lg_val := upper (py_str (get inputs "loan_grade" (VStr ""))) in
  let data := set_matching (default [] (groups !! "loan_grade")) lg_val data in
  let cb_val :=
    upper (py_str (get inputs "cb_person_default_on_file" (VStr ""))) in
  let data :=
    set_default_flag (default [] (groups !! "cb_person_default_on_file"))
      cb_val data in
  let* row := mapM (getitem data) (feature_names self) in
  Ok {| columns := feature_names self; rows := [row] |}.

(** [pd.concat(frames, ignore_index=True)] of frames that share their
    columns, as the sampler's do: the rows stacked; no frame at all is an
    error. *)
Definition pd_concat (frames : list DataFrame) : result DataFrame :=
  match frames with
  | [] => Raise (ValueError NothingToConcatenate)
  | f :: _ => Ok {| columns := columns f; rows := flat_map rows frames |}
  end.

(** [float(np.clip(rng.normal(defaults[key], scale), lo, hi))] *)
Definition draw_numeric (key : string) (scale lo hi : float) (rng : rng_state)
  : result (float * rng_state) :=
  let* d := getitem ideal_defaults key in
  let* loc := py_float d in
  let '(x, rng) := rng_normal loc scale rng in
  Ok (clip x lo hi, rng).

Definition home_opts : list string := ["OWN"; "MORTGAGE"; "RENT"; "OTHER"].
Definition intent_opts : list string :=
  ["DEBTCONSOLIDATION"; "HOMEIMPROVEMENT"; "EDUCATION"; "MEDICAL"; "PERSONAL";
   "VENTURE"].
Definition grade_opts : list string := ["A"; "B"; "C"; "D"; "E"; "F"; "G"].
Definition cb_opts : list string := ["N"; "Y"].

(** One [sample = {...}] of the loop: seven clipped normal draws, then four
    uniform choices, in the order the dict display evaluates them. *)
Definition draw_sample (rng : rng_state) : result (record * rng_state) :=
  let* (person_age, rng) := draw_numeric "person_age" 8.0 18 90 rng in
  let* (person_income, rng) :=
    draw_numeric "person_income" 30000.0 10000 300000 rng in
  let* (person_emp_length, rng) :=
    draw_numeric "person_emp_length" 3.0 0 40 rng in
  let* (loan_amnt, rng) := draw_numeric "loan_amnt" 8000.0 500 100000 rng in
  let* (loan_int_rate, rng) := draw_numeric "loan_int_rate" 5.0 1.0 40.0 rng in
  let* (loan_percent_income, rng) :=
    draw_numeric "loan_percent_income" 0.08 0.0 1.0 rng in
  let* (cb_person_cred_hist_length, rng) :=
    draw_numeric "cb_person_cred_hist_length" 5.0 0 40 rng in
  let '(person_home_ownership, rng) := rng_choice home_opts rng in
  let '(loan_intent, rng) := rng_choice intent_opts rng in
  let '(loan_grade, rng) := rng_choice grade_opts rng in
  let '(cb_person_default_on_file, rng) := rng_choice cb_opts rng in
  Ok (list_to_map [
        ("person_age", VFloat person_age);
        ("person_income", VFloat person_income);
        ("person_emp_length", VFloat person_emp_length);
        ("loan_amnt", VFloat loan_amnt);
        ("loan_int_rate", VFloat loan_int_rate);
        ("loan_percent_income", VFloat loan_percent_income);
        ("cb_person_cred_hist_length", VFloat cb_person_cred_hist_length);
        ("person_home_ownership", VStr person_home_ownership);
        ("loan_intent", VStr loan_intent);
        ("loan_grade", VStr loan_grade);
        ("cb_person_default_on_file", VStr cb_person_default_on_file)
      ], rng).

(** [for _ in range(n): sample = ...; rows.append(build_feature_vector(sample))] *)
Fixpoint background_rows (self : CreditRiskModel) (n : nat) (rng : rng_state)
  : result (list DataFrame) :=
  match n with
  | O => Ok []
  | S n' =>
      let* (sample, rng) := draw_sample rng in
      let* row := build_feature_vector self sample in
      let* rest := background_rows self n' rng in
      Ok (row :: rest)
  end.

(** [_make_background(self, n=200)]: [None] is the call without [n]. *)
Definition _make_background (self : CreditRiskModel) (n : option Z)
  : result DataFrame :=
  let n := default 200%Z n in
  let rng := default_rng 42 in
  let* frames := background_rows self (Z.to_nat n) rng in
  pd_concat frames.

(** [a[0]] on a one-dimensional array *)
Definition first {A} (a : list A) : result A :=
  match a with
  | x :: _ => Ok x
  | [] => Raise (IndexError (OfArray 0 0 0))
  end.

(** [a[:, 1]] *)
Definition column1 {A} (a : list (list A)) : result (list A) :=
  mapM (fun row =>
          match row with
          | _ :: x :: _ => Ok x
          | _ => Raise (IndexError (OfArray 1 1 (length row)))
          end) a.

Definition predict_proba (self : CreditRiskModel) (inputs : record)
  : result (float * Z) :=
  let* X_row := build_feature_vector self inputs in
  let* probs := model_predict_proba (model self) X_row in
  let* positive := column1 probs in
  let* proba := first positive in
  let* labels := model_predict (model self) X_row in
  let* pred := first labels in
  Ok (proba, pred).

Definition risk_category (proba : float) : string * string :=
  if (proba <? 0.2)%float then ("Low Risk", "#2e7d32")
  else if (proba <? 0.5)%float then ("Medium Risk", "#f9a825")
  else ("High Risk", "#c62828").

Record Meta := {
  base_value : float;
  prediction_probability : float
}.

(** [df["abs_shap"] = df["shap_value"].abs()], row by row. *)
Definition shap_row (r : string * float) : ShapRow :=
  {| feature := fst r; shap_value := snd r; abs_shap := abs (snd r) |}.

(** [pd.DataFrame({"feature": names, "shap_value": arr})]: the two columns
    must be equally long. *)
Fixpoint shap_frame (names : list string) (arr : list float)
  : result (list (string * float)) :=
  match names, arr with
  | [], [] => Ok []
  | n :: names', v :: arr' =>
      let* rest := shap_frame names' arr' in Ok ((n, v) :: rest)
  | _, _ => Raise (ValueError UnequalLengths)
  end.

(** [df.sort_values("abs_shap", ascending=False)]: the rows with a NaN key
    go last, in the order they have; the others come by decreasing key, and
    rows of equal keys in the order the sorting routine leaves them in
    ([sorted_after]). A row is put in its place among the rows already
    sorted: behind those of a greater key, and behind those of the same key
    it is sorted after. *)
Fixpoint insert_desc (df : list ShapRow) (r : ShapRow) (l : list ShapRow)
  : list ShapRow :=
  match l with
  | [] => [r]
  | r' :: l' =>
      if (abs_shap r <? abs_shap r')%float
         || ((abs_shap r =? abs_shap r')%float && sorted_after df r r')
      then r' :: insert_desc df r l'
      else r :: l
  end.

Definition sort_values_desc (df : list ShapRow) : list ShapRow :=
  let nans := filter (fun r => is_nan (abs_shap r) = true) df in
  let nums := filter (fun r => is_nan (abs_shap r) = false) df in
  (foldr (insert_desc df) [] nums ++ nans)%list.

(** [warnings.warn] in the first handler prints and goes on; it is left out. *)
Definition explain_shap (self : CreditRiskModel) (inputs : record)
  : result (list ShapRow * Meta) :=
  match shap with
  | None =>
      Raise (RuntimeError
        "SHAP is not installed. Please install 'shap' to use explanations.")
  | Some lib =>
      let* X_row := build_feature_vector self inputs in
      let* (shap_values, base_value) :=
        try_except
          (let* background := _make_background self (Some 200%Z) in
           let* (shap_values, expected_value) :=
             tree_explainer lib (model self) background X_row in
           let* base_value := first expected_value in
           Ok (shap_values, base_value))
          (fun e =>
             try_except
               (let* (values, base_values) :=
                  generic_explainer lib (model self) X_row X_row in
                let* base_value := first base_values in
                Ok (values, base_value))
               (fun e2 =>
                  Raise (RuntimeError
                           ("Failed to compute SHAP values: " +:+ str_exn e2)))) in
      let* shap_arr :=
        match shap_values with
        | SvList per_class =>
            match per_class with
            | _ :: positive :: _ => Ok positive
            | _ => Raise (IndexError (OfList 1 (length per_class)))
            end
        | SvArray flat => Ok flat
        end in
      let* df := shap_frame (feature_names self) shap_arr in
      let df := map shap_row df in
      let df := sort_values_desc df in
      let* (proba, _) := predict_proba self inputs in
      Ok (df, {| base_value := base_value; prediction_probability := proba |})
  end.

(** ** api.py *)

Record Prediction := {
  r_probability : float;
  r_prediction : Z;
  r_risk_label : string;
  r_risk_color : string;
  r_shap_values : list ShapRow;
  r_base_value : float;
  r_prediction_probability : float
}.

(** What a route answers with: [jsonify] of an error text, of the defaults
    or of a prediction; or, when the request was aborted, the error page
    the framework writes. *)
Inductive body :=
| ErrorBody (error : string)
| DefaultsBody (defaults : record)
| PredictionBody (p : Prediction)
| AbortBody.

(** [return jsonify(body), status] *)
Definition response : Type := body * Z.

(** What reading [request.json] does: it hands over the decoded body, or
    aborts the request with an HTTP error of the framework's (in current
    Flask 415 when the request is not declared as JSON, as a request without
    a payload is not, and 400 when the body does not parse). *)
Inductive json_outcome :=
| Json (data : value)
| HttpAbort (status : Z).

(** [try: model = CreditRiskModel()  except Exception: model = None] *)
Definition api_model : option CreditRiskModel :=
  match __init__ MODEL_FILENAME with
  | Ok m => Some m
  | Raise _ => None
  end.

Definition get_defaults (model : option CreditRiskModel) : response :=
  match model with
  | None => (ErrorBody "Model not loaded", 500%Z)
  | Some _ => (DefaultsBody ideal_defaults, 200%Z)
  end.

(** [data.get] exists on a dict only. *)
Definition as_record (data : value) : result record :=
  match data with
  | VDict d => Ok d
  | _ => Raise (AttributeError data)
  end.

(** [predict()]. [request.json] is read after the model is tested and
    before the [try]: when it aborts, the framework answers. *)
Definition predict (model : option CreditRiskModel) (request_json : json_outcome)
  : response :=
  match model with
  | None => (ErrorBody "Model not loaded", 500%Z)
  | Some model =>
      match request_json with
      | HttpAbort status => (AbortBody, status)
      | Json data =>
          if negb (truthy data) then
            (ErrorBody "No input data provided", 400%Z)
          else
            let attempt :=
              let* inputs := as_record data in
              let* (proba, pred) := predict_proba model inputs in
              let '(label, color) := risk_category proba in
              let* (shap_df, meta) := explain_shap model inputs in
              let shap_records := take 20 shap_df in
              Ok {| r_probability := proba;
                    r_prediction := pred;
                    r_risk_label := label;
                    r_risk_color := color;
                    r_shap_values := shap_records;
                    r_base_value := base_value meta;
                    r_prediction_probability := prediction_probability meta |} in
            match attempt with
            | Ok p => (PredictionBody p, 200%Z)
            | Raise e => (ErrorBody (str_exn e), 500%Z)
            end
      end
  end.

(** The two routes, on the module's global [model]. *)
Inductive request :=
| GET_defaults
| POST_predict (request_json : json_outcome).

Definition serve (req : request) : response :=
  match req with
  | GET_defaults => get_defaults api_model
  | POST_predict request_json => predict api_model request_json
  end.

(** ** app.py: what the "Predict Risk" button renders *)

Inductive widget :=
| RiskHeading (label color : string)
| ProbabilityMetric (proba : float)
| PredictedClass (pred : Z)
| FeatureVector (row : DataFrame)
| ShapExplanation (shap_df : list ShapRow) (meta : Meta)
| Info (text : string).

(** The feature-importance chart between the vector and the explanation
    reads the estimator only and sits in a try block of its own; it is left
    out. *)
Definition on_predict_risk (model : CreditRiskModel) (inputs : record)
  : result (list widget) :=
  let* (proba, pred) := predict_proba model inputs in
  let '(label, color) := risk_category proba in
  let* row := build_feature_vector model inputs in
  let explanation :=
    match explain_shap model inputs with
    | Ok (shap_df, meta) => ShapExplanation shap_df meta
    | Raise e => Info ("SHAP explanation not available: " +:+ str_exn e)
    end in
  Ok [RiskHeading label color; ProbabilityMetric proba; PredictedClass pred;
      FeatureVector row; explanation].

End Program.

(** ** Fixtures: a small environment to run the program in *)

(** [str.upper] on ASCII text: the letters a..z move to A..Z. *)
Definition upper_ascii (c : ascii) : ascii :=
  let n := nat_of_ascii c in
  if (97 <=? n)%nat && (n <=? 122)%nat then ascii_of_nat (n - 32) else c.

Fixpoint ascii_upper (s : string) : string :=
  match s with
  | EmptyString => EmptyString
  | String c s' => String (upper_ascii c) (ascii_upper s')
  end.

(** A wording of the built-in exceptions: the name of the class. *)
Definition class_name (e : exn) : string :=
  match e with
  | TypeError _ => "TypeError"
  | ValueError _ => "ValueError"
  | OverflowError _ => "OverflowError"
  | AttributeError _ => "AttributeError"
  | IndexError _ => "IndexError"
  | KeyError _ => "KeyError"
  | FileNotFoundError _ => "FileNotFoundError"
  | LibraryError _ => "LibraryError"
  | RuntimeError _ => "RuntimeError"
  end.

Definition stub_artifact (names : option (list string)) : Artifact := {|
  feature_names_in_ := names;
  get_booster := Raise (LibraryError "not an xgboost estimator");
  model_predict_proba := fun X => Ok (map (fun _ => [0.75; 0.25]%float) (rows X));
  model_predict := fun X => Ok (map (fun _ => 0%Z) (rows X))
|}.

(** Attributes each cell to itself. *)
Definition echo_shap : ShapLib := {|
  tree_explainer := fun _ _ X => Ok (SvArray (concat (rows X)), [0.25%float]);
  generic_explainer := fun _ _ X => Ok (SvArray (concat (rows X)), [0.25%float])
|}.

Definition failing_shap : ShapLib := {|
  tree_explainer := fun _ _ _ => Raise (LibraryError "TreeExplainer");
  generic_explainer := fun _ _ _ => Raise (LibraryError "Explainer")
|}.

Definition stub_env (lib : option ShapLib) (on_disk : bool)
    (names : option (list string)) : Env := {|
  float_of_str := fun _ => None;
  repr := fun _ => "<repr>";
  upper := ascii_upper;
  exception_text := class_name;
  sorted_after := fun _ r r' => String.ltb (feature r) (feature r');
  rng_state := Z;
  default_rng := fun seed => seed;
  rng_normal := fun loc _ st => (loc, (st + 1)%Z);
  rng_choice := fun opts st =>
    (nth (Z.to_nat st `mod` length opts) opts "", (st + 1)%Z);
  shap := lib;
  path_exists := fun _ => on_disk;
  joblib_load := fun _ => Ok (stub_artifact names)
|}.

Definition default_model : CreditRiskModel :=
  {| model := stub_artifact None; feature_names := default_features |}.

Definition test_env : Env := stub_env (Some echo_shap) true None.

(** The same environment with shap failing on every call, and without shap. *)
Definition failing_env : Env := stub_env (Some failing_shap) true None.
Definition no_shap_env : Env := stub_env None true None.

(** shap with a failing tree explainer and an answering generic one. *)
Definition tree_failing_shap : ShapLib := {|
  tree_explainer := fun _ _ _ => Raise (LibraryError "TreeExplainer");
  generic_explainer := fun _ _ X => Ok (SvArray (concat (rows X)), [0.5%float])
|}.

(** shap answering with a single value, whatever the number of features. *)
Definition short_shap : ShapLib := {|
  tree_explainer := fun _ _ _ => Ok (SvArray [1%float], [0.5%float]);
  generic_explainer := fun _ _ _ => Ok (SvArray [1%float], [0.5%float])
|}.

Definition tree_failing_env : Env := stub_env (Some tree_failing_shap) true None.
Definition short_env : Env := stub_env (Some short_shap) true None.

(** A model whose schema has a column the encoder does not know. *)
Definition region_model : CreditRiskModel :=
  {| model := stub_artifact (Some ["person_age"; "region"]);
     feature_names := ["person_age"; "region"] |}.

(** A record with one known and one unknown key. *)
Definition tagged_record : record :=
  <["nickname" := VStr "x"]> {["person_age" := VInt 30]}.

(** The record that spells out what [inputs.get] falls back on. *)
Definition spelled_defaults : record :=
  list_to_map [
    ("person_age", VInt 0);
    ("person_income", VInt 0);
    ("person_emp_length", VInt 0);
    ("loan_amnt", VInt 0);
    ("loan_int_rate", VInt 0);
    ("loan_percent_income", VInt 0);
    ("cb_person_cred_hist_length", VInt 0);
    ("person_home_ownership", VStr "");
    ("loan_intent", VStr "");
    ("loan_grade", VStr "");
    ("cb_person_default_on_file", VStr "")
  ].

(** A schema whose loan intents were written with underscores. *)
Definition underscored_names : list string :=
  ["person_age"; "loan_intent_HOME_IMPROVEMENT"; "loan_intent_IMPROVEMENT";
   "loan_intent_MEDICAL"].

Definition underscored_model : CreditRiskModel :=
  {| model := stub_artifact (Some underscored_names);
     feature_names := _infer_feature_names (stub_artifact (Some underscored_names)) |}.

(** ** Vocabulary of the properties *)

(** The tiers in the order Low, Medium, High. *)
Definition tier_rank (label : string) : nat :=
  if String.eqb label "Low Risk" then 0
  else if String.eqb label "Medium Risk" then 1
  else 2.

Definition tier_le (a b : string) : Prop := tier_rank a <= tier_rank b.

(** Row [a] may stand before row [b] in a frame sorted by decreasing
    [abs_shap]: the key of [b] is not above the key of [a], or is a NaN. *)
Definition key_ge (a b : ShapRow) : Prop :=
  (abs_shap b <=? abs_shap a)%float = true.


(** The eleven attributes [build_feature_vector] reads. *)
Definition numeric_keys : list string :=
  ["person_age"; "person_income"; "person_emp_length"; "loan_amnt";
   "loan_int_rate"; "loan_percent_income"; "cb_person_cred_hist_length"].

Definition group_names : list string :=
  ["person_home_ownership"; "loan_intent"; "loan_grade";
   "cb_person_default_on_file"].

Definition known_keys : list string := (numeric_keys ++ group_names)%list.

(** The group the if/elif chain of [_one_hot_columns] files a column under. *)
Definition group_of (col : string) : option string :=
  if startswith col "person_home_ownership_" then Some "person_home_ownership"
  else if startswith col "loan_intent_" then Some "loan_intent"
  else if startswith col "loan_grade_" then Some "loan_grade"
  else if startswith col "cb_person_default_on_file_" then
    Some "cb_person_default_on_file"
  else None.

(** [s.removeprefix(p)] when [s] starts with [p]. *)
Fixpoint strip_prefix (p s : string) : option string :=
  match p, s with
  | EmptyString, _ => Some s
  | String a p', String b s' =>
      if Ascii.eqb a b then strip_prefix p' s' else None
  | String _ _, EmptyString => None
  end.

Fixpoint no_underscore (s : string) : bool :=
  match s with
  | EmptyString => true
  | String c s' => negb (Ascii.eqb c "_") && no_underscore s'
  end.

(** A schema as one-hot encoding with a prefix separator writes it: no
    column twice, and the category after a group's prefix holds no further
    underscore. *)
Definition plain_category (col : string) : bool :=
  match group_of col with
  | Some g =>
      match strip_prefix (g +:+ "_") col with
      | Some c => no_underscore c
      | None => false
      end
  | None => true
  end.

Definition tidy_schema (names : list string) : bool :=
  bool_decide (NoDup names) && forallb plain_category names.

(** The cells of a frame's first row, with their column names. *)
Definition cells (df : DataFrame) : list (string * float) :=
  zip (columns df) (List.hd [] (rows df)).

(** The indicator cells of group [g], and those among them that hold 1.0. *)
Definition indicators (g : string) (df : DataFrame) : list (string * float) :=
  filter (fun c => group_of (fst c) = Some g) (cells df).

Definition ones (g : string) (df : DataFrame) : list (string * float) :=
  filter (fun c => (snd c =? 1)%float = true) (indicators g df).

Section Vocabulary.
Context `{E : Env}.


(** The per-feature contributions in an explainer's answer: the array
    itself, or the array of class 1 when the answer lists one per class. *)
Definition contributions (out : shap_out) (values : list float) : Prop :=
  out = SvArray values \/ exists c0 rest, out = SvList (c0 :: values :: rest).

(** The samples of [n] rounds of the sampler's loop, drawn one after the
    other from a generator in state [rng]. *)
Fixpoint samples_from (rng : rng_state) (n : nat) : result (list record) :=
  match n with
  | O => Ok []
  | S n' =>
      let* (sample, rng) := draw_sample rng in
      let* rest := samples_from rng n' in
      Ok (sample :: rest)
  end.

(** The uppercased value a record gives for a categorical attribute. *)
Definition category_value (inputs : record) (g : string) : string :=
  upper (py_str (get inputs g (VStr ""))).

(** Whether the loops of [build_feature_vector] set column [col] of group
    [g]. *)
Definition selects (inputs : record) (g col : string) : bool :=
  if String.eqb g "cb_person_default_on_file" then
    endswith col "_Y" && String.eqb (category_value inputs g) "Y"
  else endswith col ("_" +:+ category_value inputs g).

(** [numeric_map] of [build_feature_vector]: the seven coercions in order. *)
Definition numeric_map_of (inputs : record) : result (list (string * float)) :=
  mapM (fun k => let* v := py_float (get inputs k (VInt 0)) in Ok (k, v))
    numeric_keys.

(** [data] of [build_feature_vector] after its five loops. *)
Definition encode_data (self : CreditRiskModel) (inputs : record)
    (numeric_map : list (string * float)) : gmap string float :=
  let groups := _one_hot_columns self in
  set_default_flag (default [] (groups !! "cb_person_default_on_file"))
    (category_value inputs "cb_person_default_on_file")
    (set_matching (default [] (groups !! "loan_grade"))
       (category_value inputs "loan_grade")
       (set_matching (default [] (groups !! "loan_intent"))
          (category_value inputs "loan_intent")
          (set_matching (default [] (groups !! "person_home_ownership"))
             (category_value inputs "person_home_ownership")
             (assign_numeric numeric_map
                (list_to_map
                   (map (fun name => (name, 0%float)) (feature_names self))))))).

(** [float()] accepts what the record holds under each numeric attribute. *)
Definition numeric_ok (inputs : record) : Prop :=
  forall k, k ∈ numeric_keys -> exists f, py_float (get inputs k (VInt 0)) = Ok f.

End Vocabulary.

(** Two generators, maybe of two runs, draw alike from states related by
    [R]: the same numbers and the same choices, and related states after. *)
Definition same_draws (E1 E2 : Env)
    (R : @rng_state E1 -> @rng_state E2 -> Prop) : Prop :=
  (forall loc scale s1 s2, R s1 s2 ->
     fst (@rng_normal E1 loc scale s1) = fst (@rng_normal E2 loc scale s2) /\
     R (snd (@rng_normal E1 loc scale s1)) (snd (@rng_normal E2 loc scale s2))) /\
  (forall opts s1 s2, R s1 s2 ->
     fst (@rng_choice E1 opts s1) = fst (@rng_choice E2 opts s2) /\
     R (snd (@rng_choice E1 opts s1)) (snd (@rng_choice E2 opts s2))).

(** The clip range of each numeric attribute in [_make_background]. *)
Definition sample_ranges : list (string * (float * float)) :=
  [("person_age", (18, 90)); ("person_income", (10000, 300000));
   ("person_emp_length", (0, 40)); ("loan_amnt", (500, 100000));
   ("loan_int_rate", (1, 40)); ("loan_percent_income", (0, 1));
   ("cb_person_cred_hist_length", (0, 40))]%float.

(** [x] lies between [lo] and [hi], or is a NaN. *)
Definition within (lo hi x : float) : Prop :=
  is_nan x = true \/ ((lo <=? x)%float = true /\ (x <=? hi)%float = true).

(** * Properties *)

(** ** The order of binary64 numbers *)

Section FloatOrder.

#[local] Ltac sf_cases :=
  repeat match goal with
  | s : bool |- _ => destruct s
  | |- context [Z.compare ?a ?b] => destruct (Z.compare_spec a b)
  | H : context [Z.compare ?a ?b] |- _ => destruct (Z.compare_spec a b)
  | |- context [Pos.compare_cont Eq ?a ?b] =>
      change (Pos.compare_cont Eq a b) with (Pos.compare a b);
      destruct (Pos.compare_spec a b)
  | H : context [Pos.compare_cont Eq ?a ?b] |- _ =>
      change (Pos.compare_cont Eq a b) with (Pos.compare a b) in H;
      destruct (Pos.compare_spec a b)
  end; simpl in *; try congruence; try lia.

#[local] Ltac sf_destruct x y z :=
  destruct x as [?|?| |? ? ?], y as [?|?| |? ? ?], z as [?|?| |? ? ?]; simpl.

Lemma SFcompare_lt_trans x y z :
  SFcompare x y = Some Lt -> SFcompare y z = Some Lt -> SFcompare x z = Some Lt.
Proof. sf_destruct x y z; intros Hxy Hyz; sf_cases. Qed.

Lemma SFcompare_eq_lt x y z :
  SFcompare x y = Some Eq -> SFcompare y z = Some Lt -> SFcompare x z = Some Lt.
Proof. sf_destruct x y z; intros Hxy Hyz; sf_cases. Qed.

Lemma SFcompare_lt_eq x y z :
  SFcompare x y = Some Lt -> SFcompare y z = Some Eq -> SFcompare x z = Some Lt.
Proof. sf_destruct x y z; intros Hxy Hyz; sf_cases. Qed.

Lemma SFcompare_eq_eq x y z :
  SFcompare x y = Some Eq -> SFcompare y z = Some Eq -> SFcompare x z = Some Eq.
Proof. sf_destruct x y z; intros Hxy Hyz; sf_cases. Qed.

Lemma SFcompare_opp x y c :
  SFcompare x y = Some c -> SFcompare y x = Some (CompOpp c).
Proof.
  destruct x as [?|?| |? ? ?], y as [?|?| |? ? ?]; simpl; intros Hxy; sf_cases;
    injection Hxy as <-; simpl; sf_cases.
Qed.

Lemma SFcompare_nan x y :
  SFcompare x y = None -> SFcompare x x = None \/ SFcompare y y = None.
Proof.
  destruct x as [?|?| |? ? ?], y as [?|?| |? ? ?]; simpl; intros H;
    try discriminate; auto.
Qed.

(** The comparisons of the program, read through their specification. *)
Lemma ltb_compare x y :
  (x <? y)%float = true <-> SFcompare (Prim2SF x) (Prim2SF y) = Some Lt.
Proof.
  rewrite FloatAxioms.ltb_spec. unfold SFltb.
  destruct (SFcompare _ _) as [[]|]; split; congruence.
Qed.

Lemma leb_compare x y :
  (x <=? y)%float = true <->
  SFcompare (Prim2SF x) (Prim2SF y) = Some Lt \/
  SFcompare (Prim2SF x) (Prim2SF y) = Some Eq.
Proof.
  rewrite FloatAxioms.leb_spec. unfold SFleb.
  destruct (SFcompare _ _) as [[]|]; split; intros H; auto;
    try discriminate; destruct H; discriminate.
Qed.

Lemma is_nan_compare x :
  is_nan x = true <-> SFcompare (Prim2SF x) (Prim2SF x) = None.
Proof.
  unfold is_nan. rewrite FloatAxioms.eqb_spec. unfold SFeqb.
  destruct (SFcompare _ _) as [c|] eqn:Hc; simpl.
  - pose proof (SFcompare_opp _ _ _ Hc) as Ho. rewrite Hc in Ho.
    destruct c; simpl in *; split; congruence.
  - split; congruence.
Qed.

Lemma ltb_trans x y z :
  (x <? y)%float = true -> (y <? z)%float = true -> (x <? z)%float = true.
Proof. rewrite !ltb_compare. apply SFcompare_lt_trans. Qed.

Lemma leb_ltb_trans x y z :
  (x <=? y)%float = true -> (y <? z)%float = true -> (x <? z)%float = true.
Proof.
  rewrite leb_compare, !ltb_compare. intros [H|H] Hyz.
  - eapply SFcompare_lt_trans; eauto.
  - eapply SFcompare_eq_lt; eauto.
Qed.

Lemma ltb_leb_trans x y z :
  (x <? y)%float = true -> (y <=? z)%float = true -> (x <? z)%float = true.
Proof.
  rewrite leb_compare, !ltb_compare. intros Hxy [H|H].
  - eapply SFcompare_lt_trans; eauto.
  - eapply SFcompare_lt_eq; eauto.
Qed.

Lemma leb_not_ltb x y :
  (x <=? y)%float = true -> (y <? x)%float = false.
Proof.
  intros H. destruct (y <? x)%float eqn:Hlt; [|reflexivity].
  apply ltb_compare in Hlt. apply SFcompare_opp in Hlt. simpl in Hlt.
  apply leb_compare in H. destruct H; congruence.
Qed.

Lemma ltb_asym x y :
  (x <? y)%float = true -> (y <? x)%float = false.
Proof.
  intros H. destruct (y <? x)%float eqn:Hlt; [|reflexivity].
  apply ltb_compare in Hlt, H. apply SFcompare_opp in Hlt. simpl in Hlt.
  congruence.
Qed.

(** Two numbers, neither a NaN, compare one way or the other. *)
Lemma not_ltb_leb x y :
  is_nan x = false -> is_nan y = false ->
  (x <? y)%float = false -> (y <=? x)%float = true.
Proof.
  intros Hx Hy Hlt. apply leb_compare.
  destruct (SFcompare (Prim2SF x) (Prim2SF y)) as [c|] eqn:Hc.
  - pose proof (SFcompare_opp _ _ _ Hc) as Ho. destruct c; simpl in Ho; auto.
    apply ltb_compare in Hc. congruence.
  - apply SFcompare_nan in Hc. destruct Hc as [Hc|Hc];
      apply is_nan_compare in Hc; congruence.
Qed.

Lemma ltb_leb x y : (x <? y)%float = true -> (x <=? y)%float = true.
Proof. rewrite ltb_compare, leb_compare. auto. Qed.

Lemma leb_trans x y z :
  (x <=? y)%float = true -> (y <=? z)%float = true -> (x <=? z)%float = true.
Proof.
  rewrite !leb_compare. intros [Hxy|Hxy] [Hyz|Hyz].
  - left. eapply SFcompare_lt_trans; eauto.
  - left. eapply SFcompare_lt_eq; eauto.
  - left. eapply SFcompare_eq_lt; eauto.
  - right. eapply SFcompare_eq_eq; eauto.
Qed.

Lemma ltb_nan_l x y : is_nan x = true -> (x <? y)%float = false.
Proof.
  intros Hx. destruct (x <? y)%float eqn:Hlt; [|reflexivity].
  apply ltb_compare in Hlt. apply is_nan_compare in Hx.
  destruct (Prim2SF x), (Prim2SF y); simpl in *; congruence.
Qed.

Lemma ltb_nan_r x y : is_nan y = true -> (x <? y)%float = false.
Proof.
  intros Hy. destruct (x <? y)%float eqn:Hlt; [|reflexivity].
  apply ltb_compare in Hlt. apply is_nan_compare in Hy.
  destruct (Prim2SF x), (Prim2SF y); simpl in *; congruence.
Qed.

End FloatOrder.

(** ** Risk tiers *)

(** C3. [risk_category] answers Low Risk below 0.2, Medium Risk from 0.2 up
    to but not including 0.5, and High Risk from 0.5 on, each with its
    colour; at the four boundary probabilities 0.1999, 0.2, 0.4999 and 0.5 the
    labels are Low, Medium, Medium and High. *)
Theorem risk_category_thresholds : forall p : float,
  ((p <? 0.2)%float = true -> risk_category p = ("Low Risk", "#2e7d32")) /\
  ((0.2 <=? p)%float = true -> (p <? 0.5)%float = true ->
     risk_category p = ("Medium Risk", "#f9a825")) /\
  ((0.5 <=? p)%float = true -> risk_category p = ("High Risk", "#c62828")) /\
  fst (risk_category 0.1999) = "Low Risk" /\
  fst (risk_category 0.2) = "Medium Risk" /\
  fst (risk_category 0.4999) = "Medium Risk" /\
  fst (risk_category 0.5) = "High Risk".
Proof.
  intros p. unfold risk_category.
  split; [|split; [|split; [|repeat split]]].
  - intros ->. reflexivity.
  - intros Hge Hlt. rewrite (leb_not_ltb _ _ Hge), Hlt. reflexivity.
  - intros Hge.
    assert ((p <? 0.5)%float = false) as H5 by exact (leb_not_ltb _ _ Hge).
    assert ((p <? 0.2)%float = false) as H2.
    { destruct (p <? 0.2)%float eqn:Hlt; [|reflexivity].
      assert ((p <? 0.5)%float = true) as Habs.
      { eapply ltb_trans; [exact Hlt|]. reflexivity. }
      congruence. }
    rewrite H2, H5. reflexivity.
Qed.

(** C8. The tier never goes down as the probability goes up: for
    p1 <= p2 the label of p1 is at most the label of p2 in the order
    Low Risk, Medium Risk, High Risk. *)
Theorem risk_category_monotone : forall p1 p2 : float,
  (p1 <=? p2)%float = true ->
  tier_le (fst (risk_category p1)) (fst (risk_category p2)).
Proof.
  intros p1 p2 Hle. unfold tier_le, risk_category.
  destruct (p2 <? 0.2)%float eqn:H2.
  - rewrite (leb_ltb_trans _ _ _ Hle H2). simpl. lia.
  - destruct (p2 <? 0.5)%float eqn:H5.
    + rewrite (leb_ltb_trans _ _ _ Hle H5).
      destruct (p1 <? 0.2)%float; simpl; unfold tier_rank; simpl; lia.
    + destruct (p1 <? 0.2)%float, (p1 <? 0.5)%float;
        simpl; unfold tier_rank; simpl; lia.
Qed.

Lemma risk_category_monotone_witness :
  (0.1 <=? 0.3)%float = true /\
  tier_le (fst (risk_category 0.1)) (fst (risk_category 0.3)).
Proof.
  split; [reflexivity|].
  apply (risk_category_monotone 0.1 0.3). reflexivity.
Defined.

(** ** Strings *)

#[local] Arguments String.append !_ _ / : simpl nomatch.

Lemma append_assoc (a b c : string) : (a +:+ b) +:+ c = a +:+ (b +:+ c).
Proof. induction a as [|x a IH]; simpl; [reflexivity|]. now rewrite IH. Qed.

Lemma endswith_unfold s suf :
  endswith s suf =
  String.eqb s suf ||
  match s with
  | EmptyString => false
  | String _ s' => endswith s' suf
  end.
Proof. destruct s; reflexivity. Qed.

Lemma endswith_spec s suf :
  endswith s suf = true <-> exists p, s = p +:+ suf.
Proof.
  induction s as [|c s IH]; rewrite endswith_unfold.
  - rewrite orb_false_r, String.eqb_eq. split.
    + intros <-. now exists "".
    + intros [p Hp]. destruct p; simpl in Hp; [now symmetry | discriminate].
  - rewrite orb_true_iff, String.eqb_eq, IH. split.
    + intros [<- | [p ->]]; [now exists "" | now exists (String c p)].
    + intros [p Hp]. destruct p as [|d p]; simpl in Hp.
      * now left.
      * right. exists p. now injection Hp.
Qed.

Lemma strip_prefix_spec p s r :
  strip_prefix p s = Some r <-> s = p +:+ r.
Proof.
  revert s. induction p as [|a p IH]; intros s; simpl.
  - split; [now intros [= ->] | now intros ->].
  - destruct s as [|b s]; [split; discriminate|].
    destruct (Ascii.eqb a b) eqn:Hab.
    + apply Ascii.eqb_eq in Hab as ->. rewrite IH.
      split; [now intros -> | now intros [= ->]].
    + split; [discriminate|]. intros [= -> _].
      now rewrite Ascii.eqb_refl in Hab.
Qed.

Lemma no_underscore_app a b :
  no_underscore (a +:+ b) = no_underscore a && no_underscore b.
Proof.
  induction a as [|c a IH]; simpl; [reflexivity|].
  now rewrite IH, andb_assoc.
Qed.

(** A string splits at its last underscore, when it has one. *)
Lemma last_underscore s :
  no_underscore s = true \/
  exists x w, s = x +:+ String "_" w /\ no_underscore w = true.
Proof.
  induction s as [|c s [IH | (x & w & -> & Hw)]]; simpl.
  - now left.
  - destruct (Ascii.eqb c "_") eqn:Hc; simpl.
    + apply Ascii.eqb_eq in Hc as ->. right. now exists "", s.
    + now left.
  - right. now exists (String c x), w.
Qed.

(** The part after the last underscore is determined by the string. *)
Lemma last_segment_unique p1 p2 c1 c2 :
  p1 +:+ String "_" c1 = p2 +:+ String "_" c2 ->
  no_underscore c1 = true -> no_underscore c2 = true -> c1 = c2.
Proof.
  revert p2. induction p1 as [|a p1 IH]; intros [|b p2]; simpl; intros Heq H1 H2.
  - now injection Heq.
  - injection Heq as <- ->. rewrite no_underscore_app in H1. simpl in H1.
    now rewrite andb_false_r in H1.
  - injection Heq as -> <-. rewrite no_underscore_app in H2. simpl in H2.
    now rewrite andb_false_r in H2.
  - injection Heq as _ Heq. eauto.
Qed.

(** Two columns that end in the same [_value] carry the same category. *)
Lemma plain_suffix_unique p1 p2 c1 c2 suf :
  endswith (p1 +:+ String "_" c1) (String "_" suf) = true ->
  endswith (p2 +:+ String "_" c2) (String "_" suf) = true ->
  no_underscore c1 = true -> no_underscore c2 = true -> c1 = c2.
Proof.
  rewrite !endswith_spec. intros [q1 H1] [q2 H2] Hc1 Hc2.
  destruct (last_underscore (String "_" suf)) as [Hn | (x & w & Hs & Hw)];
    [discriminate|].
  rewrite Hs, <- append_assoc in H1, H2.
  apply last_segment_unique in H1, H2; congruence.
Qed.

Lemma startswith_strip s p :
  startswith s p = true -> exists r, s = p +:+ r.
Proof.
  revert s. induction p as [|a p IH]; intros [|b s]; simpl;
    try discriminate; try (now eexists).
  destruct (Ascii.eqb a b) eqn:Hab; simpl; [|discriminate].
  apply Ascii.eqb_eq in Hab as ->. intros Hs.
  destruct (IH _ Hs) as [r ->]. now exists r.
Qed.

(** A column filed under a group is the group's name, an underscore and a
    category. *)
Lemma group_of_Some col g :
  group_of col = Some g ->
  g ∈ group_names /\ exists c, col = (g +:+ "_") +:+ c.
Proof.
  unfold group_of, group_names.
  repeat match goal with
  | |- context [startswith col ?p] =>
      let H := fresh "H" in destruct (startswith col p) eqn:H
  end; intros [= <-];
  match goal with
  | H : startswith _ _ = true |- _ => apply startswith_strip in H as [r ->]
  end; (split; [set_solver | now exists r]).
Qed.

(** ** The dictionaries of the encoder *)

Lemma zero_data_lookup (names : list string) k :
  (list_to_map (map (fun name => (name, 0%float)) names) : gmap string float)
    !! k
  = if bool_decide (k ∈ names) then Some 0%float else None.
Proof.
  induction names as [|a names IH]; simpl.
  - apply lookup_empty.
  - rewrite lookup_insert. destruct (decide (a = k)) as [->|Hak].
    + now rewrite bool_decide_eq_true_2 by set_solver.
    + rewrite IH. repeat case_bool_decide; set_solver.
Qed.

Lemma set_matching_lookup cols val (data : gmap string float) k :
  set_matching cols val data !! k
  = if bool_decide (k ∈ cols) && endswith k ("_" +:+ val) then Some 1%float
    else data !! k.
Proof.
  unfold set_matching. revert data.
  induction cols as [|c cols IH]; intros data; simpl.
  - reflexivity.
  - rewrite IH. destruct (decide (k = c)) as [->|Hne].
    + rewrite (bool_decide_eq_true_2 (c ∈ c :: cols)) by set_solver.
      destruct (endswith c _) eqn:Hc; simpl.
      * rewrite andb_true_r, lookup_insert_eq. now case_bool_decide.
      * now rewrite !andb_false_r.
    + assert (bool_decide (k ∈ c :: cols) = bool_decide (k ∈ cols)) as ->.
      { apply bool_decide_ext. set_solver. }
      destruct (_ && _); [reflexivity|].
      destruct (endswith c _); [|reflexivity].
      now rewrite lookup_insert_ne.
Qed.

Lemma set_default_flag_lookup cols cb_val (data : gmap string float) k :
  set_default_flag cols cb_val data !! k
  = if bool_decide (k ∈ cols) && (endswith k "_Y" && String.eqb cb_val "Y")
    then Some 1%float
    else data !! k.
Proof.
  unfold set_default_flag. revert data.
  induction cols as [|c cols IH]; intros data; simpl.
  - reflexivity.
  - rewrite IH. destruct (decide (k = c)) as [->|Hne].
    + rewrite (bool_decide_eq_true_2 (c ∈ c :: cols)) by set_solver.
      destruct (endswith c "_Y" && _) eqn:Hc; simpl.
      * rewrite andb_true_r, lookup_insert_eq. now case_bool_decide.
      * now rewrite !andb_false_r.
    + assert (bool_decide (k ∈ c :: cols) = bool_decide (k ∈ cols)) as ->.
      { apply bool_decide_ext. set_solver. }
      destruct (bool_decide _ && _); [reflexivity|].
      destruct (endswith c "_Y" && _); [|reflexivity].
      now rewrite lookup_insert_ne.
Qed.

(** The numeric loop writes under its own keys only, and adds none. *)
Lemma assign_numeric_other numeric_map (data : gmap string float) k :
  k ∉ numeric_map.*1 -> assign_numeric numeric_map data !! k = data !! k.
Proof.
  unfold assign_numeric. revert data.
  induction numeric_map as [|[k' v] nm IH]; intros data Hk; simpl; [reflexivity|].
  rewrite IH by set_solver. case_bool_decide; [|reflexivity].
  apply lookup_insert_ne. set_solver.
Qed.

Lemma assign_numeric_is_Some numeric_map (data : gmap string float) k :
  is_Some (data !! k) -> is_Some (assign_numeric numeric_map data !! k).
Proof.
  unfold assign_numeric. revert data.
  induction numeric_map as [|[k' v] nm IH]; intros data Hk; simpl; [exact Hk|].
  apply IH. case_bool_decide; [|exact Hk].
  rewrite lookup_insert_is_Some'. now right.
Qed.

(** [_one_hot_columns] files under each group the columns [group_of] sends
    there, in schema order. *)
Lemma one_hot_columns_lookup self g :
  g ∈ group_names ->
  default [] (_one_hot_columns self !! g)
  = filter (fun c => group_of c = Some g) (feature_names self).
Proof.
  intros Hg. unfold _one_hot_columns.
  set (step := fun (groups : gmap string (list string)) (col : string) => _).
  assert (forall col groups, step groups col =
            match group_of col with
            | Some g' => group_append g' col groups
            | None => groups
            end) as Hstep.
  { intros col groups. unfold step, group_of.
    repeat match goal with
    | |- context [startswith col ?p] => destruct (startswith col p)
    end; reflexivity. }
  assert (forall names (G : gmap string (list string)) l0,
            G !! g = Some l0 ->
            foldl step G names !! g
            = Some (l0 ++ filter (fun c => group_of c = Some g) names)%list)
    as Hfold.
  { induction names as [|a names IH]; intros G l0 HG; simpl.
    - now rewrite app_nil_r.
    - rewrite Hstep. rewrite filter_cons.
      destruct (group_of a) as [g'|] eqn:Ha.
      + unfold group_append. destruct (decide (g' = g)) as [->|Hne].
        * rewrite decide_True by reflexivity.
          erewrite IH; [|rewrite lookup_alter_eq, HG; reflexivity].
          now rewrite <- app_assoc.
        * rewrite decide_False by congruence.
          apply IH. now rewrite lookup_alter_ne.
      + rewrite decide_False by congruence. now apply IH. }
  rewrite (Hfold _ _ []); [reflexivity|].
  unfold group_names in Hg.
  repeat (apply elem_of_cons in Hg as [->|Hg]; [reflexivity|]).
  now apply elem_of_nil in Hg.
Qed.

(** ** The feature encoder *)

Lemma mapM_ext {A B} (f g : A -> result B) (l : list A) :
  (forall a, a ∈ l -> f a = g a) -> mapM f l = mapM g l.
Proof.
  induction l as [|a l IH]; intros Hfg; simpl; [reflexivity|].
  rewrite (Hfg a) by set_solver. rewrite IH by (intros; apply Hfg; set_solver).
  reflexivity.
Qed.

Section Encoder.
Context `{E : Env}.

Lemma build_feature_vector_eq self inputs :
  build_feature_vector self inputs =
  let* numeric_map := numeric_map_of inputs in
  let* row :=
    mapM (getitem (encode_data self inputs numeric_map)) (feature_names self) in
  Ok {| columns := feature_names self; rows := [row] |}.
Proof.
  unfold build_feature_vector, numeric_map_of, numeric_keys, encode_data,
    category_value.
  cbn [mapM].
  repeat match goal with
  | |- context [py_float ?v] =>
      destruct (py_float v); cbn [bind]; [|reflexivity]
  end.
  reflexivity.
Qed.

Lemma numeric_map_of_ok inputs :
  numeric_ok inputs ->
  exists numeric_map,
    numeric_map_of inputs = Ok numeric_map /\ numeric_map.*1 = numeric_keys.
Proof.
  intros Hok. unfold numeric_map_of.
  assert (forall keys, (forall k, k ∈ keys -> k ∈ numeric_keys) ->
            exists nm,
              mapM (fun k => let* v := py_float (get inputs k (VInt 0)) in
                             Ok (k, v)) keys = Ok nm /\ nm.*1 = keys) as Hgen.
  { induction keys as [|k keys IH]; intros Hin; simpl.
    - now exists [].
    - destruct (Hok k) as [f ->]; [apply Hin; set_solver|]. simpl.
      destruct IH as (nm & -> & Hnm); [intros; apply Hin; set_solver|].
      exists ((k, f) :: nm). split; [reflexivity|].
      now rewrite fmap_cons, Hnm. }
  now apply Hgen.
Qed.

Lemma numeric_map_of_inv inputs numeric_map :
  numeric_map_of inputs = Ok numeric_map ->
  numeric_ok inputs /\ numeric_map.*1 = numeric_keys.
Proof.
  unfold numeric_map_of, numeric_ok.
  generalize numeric_keys as keys. intros keys. revert numeric_map.
  induction keys as [|k keys IH]; intros nm; simpl.
  - intros [= <-]. split; [set_solver | reflexivity].
  - destruct (py_float (get inputs k (VInt 0))) as [f|] eqn:Hk; simpl;
      [|discriminate].
    destruct (mapM _ keys) as [nm'|] eqn:Hrest; simpl; [|discriminate].
    intros [= <-]. destruct (IH _ eq_refl) as [Hok Hfst]. split.
    + intros k' [->|Hk']%elem_of_cons; eauto.
    + now rewrite fmap_cons, Hfst.
Qed.

(** When the coercions fail, it is with the error of one of them. *)
Lemma numeric_map_of_raises inputs e :
  numeric_map_of inputs = Raise e ->
  exists k, k ∈ numeric_keys /\ py_float (get inputs k (VInt 0)) = Raise e.
Proof.
  unfold numeric_map_of. generalize numeric_keys as keys.
  induction keys as [|k keys IH]; simpl; [discriminate|].
  destruct (py_float (get inputs k (VInt 0))) as [f|e'] eqn:Hk; cbn [bind].
  - destruct (mapM _ keys) as [nm|e'] eqn:Hrest; cbn [bind]; [discriminate|].
    intros [= ->]. destruct (IH eq_refl) as (k' & Hin & Hk').
    exists k'. split; [set_solver | exact Hk'].
  - intros [= ->]. exists k. split; [set_solver | exact Hk].
Qed.

Lemma mapM_getitem (d : gmap string float) (names : list string) :
  (forall k, k ∈ names -> is_Some (d !! k)) ->
  exists row,
    mapM (getitem d) names = Ok row /\
    length row = length names /\
    forall i k, names !! i = Some k -> row !! i = d !! k.
Proof.
  induction names as [|a names IH]; intros Hd; simpl.
  - exists []. repeat split; intros; discriminate.
  - destruct (Hd a) as [v Hv]; [set_solver|].
    destruct IH as (row & Hrow & Hlen & Hget); [intros; apply Hd; set_solver|].
    unfold getitem at 1. rewrite Hv. simpl. rewrite Hrow. simpl.
    exists (v :: row). repeat split; [simpl; lia|].
    intros [|i] k; simpl; [intros [= <-]; now symmetry | apply Hget].
Qed.

(** Every column of the schema is a key of [data]. *)
Lemma encode_data_is_Some self inputs numeric_map k :
  k ∈ feature_names self ->
  is_Some (encode_data self inputs numeric_map !! k).
Proof.
  intros Hk. unfold encode_data.
  rewrite set_default_flag_lookup, !set_matching_lookup.
  repeat match goal with
  | |- is_Some (if ?b then _ else _) => destruct b; [eauto|]
  end.
  apply assign_numeric_is_Some. rewrite zero_data_lookup.
  rewrite bool_decide_eq_true_2 by assumption. eauto.
Qed.

Lemma group_of_numeric k g : k ∈ numeric_keys -> group_of k <> Some g.
Proof.
  unfold numeric_keys. intros Hk.
  repeat (apply elem_of_cons in Hk as [->|Hk]; [discriminate|]).
  now apply elem_of_nil in Hk.
Qed.

(** An indicator column holds 1.0 when its loop selects it, else the 0.0 it
    started with. *)
Lemma encode_data_group self inputs numeric_map k g :
  numeric_map.*1 = numeric_keys ->
  k ∈ feature_names self -> group_of k = Some g ->
  encode_data self inputs numeric_map !! k
  = Some (if selects inputs g k then 1%float else 0%float).
Proof.
  intros Hnm Hk Hg. unfold encode_data.
  rewrite set_default_flag_lookup, !set_matching_lookup.
  rewrite !one_hot_columns_lookup by (unfold group_names; set_solver).
  rewrite assign_numeric_other
    by (rewrite Hnm; intros Hn; now apply (group_of_numeric k g)).
  rewrite zero_data_lookup.
  rewrite (bool_decide_eq_true_2 (k ∈ feature_names self)) by assumption.
  assert (forall g', bool_decide
            (k ∈ filter (fun c => group_of c = Some g') (feature_names self))
          = bool_decide (g = g')) as Hmem.
  { intros g'. apply bool_decide_ext. rewrite list_elem_of_filter, Hg.
    split; [intros [[= ->] _]; reflexivity | intros ->; now split]. }
  rewrite !Hmem. unfold selects.
  destruct (group_of_Some _ _ Hg) as [Hin _]. unfold group_names in Hin.
  repeat (apply elem_of_cons in Hin as [->|Hin];
          [simpl; repeat (rewrite bool_decide_eq_false_2 by discriminate);
           rewrite ?bool_decide_eq_true_2 by reflexivity; simpl;
           repeat match goal with
           | |- context [if ?b then _ else _] => destruct b
           end; reflexivity|]).
  now apply elem_of_nil in Hin.
Qed.

End Encoder.

Section EncoderProperties.
Context `{E : Env}.

(** What a returned frame is made of. *)
Lemma build_feature_vector_inv self inputs df :
  build_feature_vector self inputs = Ok df ->
  exists numeric_map row,
    numeric_map_of inputs = Ok numeric_map /\
    numeric_map.*1 = numeric_keys /\
    df = {| columns := feature_names self; rows := [row] |} /\
    length row = length (feature_names self) /\
    forall i k, feature_names self !! i = Some k ->
      row !! i = encode_data self inputs numeric_map !! k.
Proof.
  rewrite build_feature_vector_eq.
  destruct (numeric_map_of inputs) as [nm|] eqn:Hnm; cbn [bind]; [|discriminate].
  destruct (mapM_getitem (encode_data self inputs nm) (feature_names self))
    as (row & -> & Hlen & Hget).
  { intros k Hk. now apply encode_data_is_Some. }
  cbn [bind]. intros [= <-]. exists nm, row.
  destruct (numeric_map_of_inv _ _ Hnm) as [_ Hfst]. auto.
Qed.

(** The encoder accepts every record whose numeric attributes coerce. *)
Lemma build_feature_vector_accepts self inputs :
  numeric_ok inputs -> exists df, build_feature_vector self inputs = Ok df.
Proof.
  intros Hok. rewrite build_feature_vector_eq.
  destruct (numeric_map_of_ok _ Hok) as (nm & -> & _). cbn [bind].
  destruct (mapM_getitem (encode_data self inputs nm) (feature_names self))
    as (row & -> & _).
  { intros k Hk. now apply encode_data_is_Some. }
  cbn [bind]. eauto.
Qed.

(** C1, as amended. On a record whose seven numeric attributes are absent or
    hold values [float] accepts, [build_feature_vector] returns one row, as
    long as the model's [feature_names] and under exactly those column names
    in that order. On any other record it returns no vector: it raises the
    error of the coercion of one of the seven attributes. *)
Theorem build_feature_vector_shape : forall self inputs,
  (numeric_ok inputs ->
   exists row,
     build_feature_vector self inputs
     = Ok {| columns := feature_names self; rows := [row] |} /\
     length row = length (feature_names self)) /\
  (~ numeric_ok inputs ->
   exists k e,
     k ∈ numeric_keys /\ py_float (get inputs k (VInt 0)) = Raise e /\
     build_feature_vector self inputs = Raise e).
Proof.
  intros self inputs. rewrite build_feature_vector_eq. split.
  - intros Hok. destruct (numeric_map_of_ok _ Hok) as (nm & -> & _). cbn [bind].
    destruct (mapM_getitem (encode_data self inputs nm) (feature_names self))
      as (row & -> & Hlen & _).
    { intros k Hk. now apply encode_data_is_Some. }
    exists row. split; [reflexivity | exact Hlen].
  - intros Hbad. destruct (numeric_map_of inputs) as [nm|e] eqn:Hnm.
    + now apply numeric_map_of_inv in Hnm as [Hok _].
    + destruct (numeric_map_of_raises _ _ Hnm) as (k & Hin & Hk).
      exists k, e. auto.
Qed.

(** X1. The encoder returns a vector exactly for the records whose seven
    numeric attributes are absent or accepted by [float], whatever the schema:
    a bad value raises even when the schema has no column for it. *)
Lemma build_feature_vector_returns_iff self inputs :
  (exists df, build_feature_vector self inputs = Ok df) <-> numeric_ok inputs.
Proof.
  split.
  - intros [df Hdf]. apply build_feature_vector_inv in Hdf
      as (nm & _ & Hnm & _). now apply numeric_map_of_inv in Hnm.
  - apply build_feature_vector_accepts.
Qed.

(** C9. The vector is a function of the eleven known attributes: records
    that agree on them are encoded alike (or fail alike), whatever other
    keys they carry. *)
Theorem build_feature_vector_known_keys : forall self (r1 r2 : record),
  (forall k, k ∈ known_keys -> r1 !! k = r2 !! k) ->
  build_feature_vector self r1 = build_feature_vector self r2.
Proof.
  intros self r1 r2 Hagree.
  assert (forall k d, k ∈ known_keys -> get r1 k d = get r2 k d) as Hget.
  { intros k d Hk. unfold get. now rewrite (Hagree k Hk). }
  unfold build_feature_vector.
  rewrite !(Hget _ _) by (unfold known_keys, numeric_keys, group_names; set_solver).
  reflexivity.
Qed.

Lemma NoDup_zip_fst {A B} (l : list A) (k : list B) :
  NoDup l -> NoDup (zip l k).
Proof.
  intros Hl. revert k. induction Hl as [|x l Hx Hl IH]; intros [|y k]; simpl;
    try constructor; auto.
  intros Hin. apply Hx. now apply elem_of_zip_l in Hin.
Qed.

Lemma length_le_1_of_all_equal {A} (l : list A) :
  NoDup l -> (forall x y, x ∈ l -> y ∈ l -> x = y) -> length l <= 1.
Proof.
  intros Hnd Heq. destruct l as [|x [|y l]]; simpl; try lia.
  exfalso. apply NoDup_cons in Hnd as [Hx _]. apply Hx.
  rewrite (Heq x y) by set_solver. set_solver.
Qed.

(** In a tidy schema a column of a group is the group's prefix and a
    category without underscore. *)
Lemma tidy_schema_column names col g :
  tidy_schema names = true -> col ∈ names -> group_of col = Some g ->
  exists c, col = g +:+ String "_" c /\ no_underscore c = true.
Proof.
  unfold tidy_schema. rewrite andb_true_iff, forallb_forall.
  intros [_ Hplain] Hin Hg. apply list_elem_of_In in Hin.
  specialize (Hplain _ Hin). unfold plain_category in Hplain.
  rewrite Hg in Hplain.
  destruct (strip_prefix (g +:+ "_") col) as [c|] eqn:Hc; [|discriminate].
  apply strip_prefix_spec in Hc. exists c. split; [|exact Hplain].
  now rewrite Hc, append_assoc.
Qed.

(** Every selected column ends in one and the same [_value]. *)
Lemma selects_suffix inputs g :
  exists suf, forall col, selects inputs g col = true ->
    endswith col (String "_" suf) = true.
Proof.
  unfold selects. destruct (String.eqb g "cb_person_default_on_file").
  - exists "Y". intros col. rewrite andb_true_iff. now intros [H _].
  - exists (category_value inputs g). intros col H. exact H.
Qed.

(** In a tidy schema the loops of a group select at most one column. *)
Lemma tidy_selects_unique names inputs g col1 col2 :
  tidy_schema names = true ->
  col1 ∈ names -> col2 ∈ names ->
  group_of col1 = Some g -> group_of col2 = Some g ->
  selects inputs g col1 = true -> selects inputs g col2 = true ->
  col1 = col2.
Proof.
  intros Htidy Hin1 Hin2 Hg1 Hg2 Hs1 Hs2.
  destruct (tidy_schema_column _ _ _ Htidy Hin1 Hg1) as (c1 & -> & Hc1).
  destruct (tidy_schema_column _ _ _ Htidy Hin2 Hg2) as (c2 & -> & Hc2).
  destruct (selects_suffix inputs g) as [suf Hsuf].
  apply Hsuf in Hs1, Hs2.
  now rewrite (plain_suffix_unique _ _ _ _ _ Hs1 Hs2 Hc1 Hc2).
Qed.

(** The indicator cells of a returned frame: one per column of the group,
    holding 1.0 if the column is selected and 0.0 otherwise. *)
Lemma indicators_spec self inputs df g col v :
  build_feature_vector self inputs = Ok df ->
  (col, v) ∈ indicators g df ->
  col ∈ feature_names self /\ group_of col = Some g /\
  v = (if selects inputs g col then 1%float else 0%float).
Proof.
  intros Hdf Hin. apply build_feature_vector_inv in Hdf
    as (nm & row & _ & Hnm & -> & Hlen & Hget).
  unfold indicators, cells in Hin. simpl in Hin.
  apply list_elem_of_filter in Hin as [Hg Hin]. simpl in Hg.
  apply list_elem_of_lookup in Hin as [i Hi].
  apply lookup_zip_with_Some in Hi as (x & y & [= <- <-] & Hx & Hy).
  assert (col ∈ feature_names self) as Hcol
    by (apply list_elem_of_lookup; eauto).
  rewrite (Hget _ _ Hx), (encode_data_group _ _ _ _ _ Hnm Hcol Hg) in Hy.
  injection Hy as <-. auto.
Qed.

Lemma indicators_complete self inputs df g col :
  build_feature_vector self inputs = Ok df ->
  col ∈ feature_names self -> group_of col = Some g ->
  (col, if selects inputs g col then 1%float else 0%float) ∈ indicators g df.
Proof.
  intros Hdf Hcol Hg. apply build_feature_vector_inv in Hdf
    as (nm & row & _ & Hnm & -> & Hlen & Hget).
  unfold indicators, cells. simpl.
  apply list_elem_of_filter. split; [exact Hg|].
  apply list_elem_of_lookup in Hcol as [i Hi].
  apply list_elem_of_lookup. exists i.
  apply lookup_zip_with_Some. do 2 eexists. split; [reflexivity|].
  split; [exact Hi|].
  rewrite (Hget _ _ Hi). apply encode_data_group; auto.
  apply list_elem_of_lookup; eauto.
Qed.

(** X22. For a model with a tidy schema, every record the encoder accepts
    and every categorical group: at most one indicator of the group holds
    1.0; exactly one does when the loops select a column of the group (its
    name ends in an underscore and the uppercased value; for the
    prior-default group, it ends in _Y and the uppercased value is Y); and
    when they select none, every indicator of the group holds 0.0. *)
Theorem one_hot_at_most_one : forall self inputs df g,
  tidy_schema (feature_names self) = true ->
  build_feature_vector self inputs = Ok df ->
  length (ones g df) <= 1 /\
  ((exists col, col ∈ feature_names self /\ group_of col = Some g /\
                selects inputs g col = true) ->
   length (ones g df) = 1) /\
  ((forall col, col ∈ feature_names self -> group_of col = Some g ->
                selects inputs g col = false) ->
   forall col v, (col, v) ∈ indicators g df -> v = 0%float).
Proof.
  intros self inputs df g Htidy Hdf.
  assert (length (ones g df) <= 1) as Hle.
  { apply length_le_1_of_all_equal.
    - unfold ones, indicators, cells. do 2 apply NoDup_filter.
      pose proof Hdf as Hdf'. apply build_feature_vector_inv in Hdf'
        as (nm & row & _ & _ & -> & _). simpl.
      apply NoDup_zip_fst. unfold tidy_schema in Htidy.
      apply andb_true_iff in Htidy as [Hnd _].
      now apply bool_decide_eq_true in Hnd.
    - intros [c1 v1] [c2 v2] H1 H2. unfold ones in H1, H2.
      apply list_elem_of_filter in H1 as [Hv1 H1], H2 as [Hv2 H2].
      simpl in Hv1, Hv2.
      destruct (indicators_spec _ _ _ _ _ _ Hdf H1) as (Hin1 & Hg1 & ->).
      destruct (indicators_spec _ _ _ _ _ _ Hdf H2) as (Hin2 & Hg2 & ->).
      destruct (selects inputs g c1) eqn:Hs1; [|discriminate].
      destruct (selects inputs g c2) eqn:Hs2; [|discriminate].
      now rewrite (tidy_selects_unique _ _ _ _ _ Htidy Hin1 Hin2 Hg1 Hg2 Hs1 Hs2). }
  split; [exact Hle|]. split.
  - intros (col & Hin & Hg & Hs).
    pose proof (indicators_complete _ _ _ _ _ Hdf Hin Hg) as Hcell.
    rewrite Hs in Hcell.
    assert ((col, 1%float) ∈ ones g df) as Hone.
    { unfold ones. apply list_elem_of_filter. split; [reflexivity|exact Hcell]. }
    destruct (ones g df); [now apply elem_of_nil in Hone | simpl in *; lia].
  - intros Hnone col v Hin.
    destruct (indicators_spec _ _ _ _ _ _ Hdf Hin) as (Hcol & Hg & ->).
    now rewrite (Hnone _ Hcol Hg).
Qed.

End EncoderProperties.

(** *** The encoder at concrete records *)

Lemma ideal_defaults_numeric_ok : @numeric_ok test_env ideal_defaults.
Proof.
  intros k Hk. unfold numeric_keys in Hk.
  repeat (apply elem_of_cons in Hk as [->|Hk];
          [eexists; vm_compute; reflexivity|]).
  now apply elem_of_nil in Hk.
Qed.

Lemma build_feature_vector_shape_witness :
  @numeric_ok test_env ideal_defaults /\
  exists row,
    @build_feature_vector test_env default_model ideal_defaults
    = Ok {| columns := feature_names default_model; rows := [row] |} /\
    length row = length (feature_names default_model).
Proof.
  split; [exact ideal_defaults_numeric_ok|].
  apply (proj1 (@build_feature_vector_shape test_env default_model
                  ideal_defaults)).
  exact ideal_defaults_numeric_ok.
Defined.

(** C1, as stated, fails on a record that maps a numeric attribute to
    [null]: the coercion raises and no vector is returned. *)
Lemma build_feature_vector_null_age :
  @build_feature_vector test_env default_model {["person_age" := VNone]}
  = Raise (TypeError VNone).
Proof. vm_compute. reflexivity. Qed.

Lemma default_features_tidy : tidy_schema default_features = true.
Proof. vm_compute. reflexivity. Qed.

Lemma one_hot_at_most_one_witness :
  exists df,
    tidy_schema (feature_names default_model) = true /\
    @build_feature_vector test_env default_model {["loan_grade" := VStr "b"]}
    = Ok df /\
    (length (ones "loan_grade" df) <= 1 /\
     ((exists col, col ∈ feature_names default_model /\
                   group_of col = Some "loan_grade" /\
                   @selects test_env {["loan_grade" := VStr "b"]} "loan_grade" col
                   = true) ->
      length (ones "loan_grade" df) = 1) /\
     ((forall col, col ∈ feature_names default_model ->
                   group_of col = Some "loan_grade" ->
                   @selects test_env {["loan_grade" := VStr "b"]} "loan_grade" col
                   = false) ->
      forall col v, (col, v) ∈ indicators "loan_grade" df -> v = 0%float)).
Proof.
  eexists. split; [exact default_features_tidy|].
  split; [vm_compute; reflexivity|].
  apply (@one_hot_at_most_one test_env default_model
           {["loan_grade" := VStr "b"]} _ "loan_grade");
    [exact default_features_tidy | vm_compute; reflexivity].
Defined.

(** C2 on the code. The loops match a column by [endswith]: on a schema in
    which two columns of a group end in the same [_VALUE], one record sets
    both of them, and the row has two indicators of the group at 1.0. *)
Lemma one_hot_two_ones :
  @build_feature_vector test_env underscored_model
    {["loan_intent" := VStr "improvement"]}
  = Ok {| columns := underscored_names;
          rows := [[0; 1; 1; 0]%float] |} /\
  length (ones "loan_intent"
            {| columns := underscored_names;
               rows := [[0; 1; 1; 0]%float] |}) = 2.
Proof. split; vm_compute; reflexivity. Qed.

Lemma tagged_record_agrees :
  forall k, k ∈ known_keys ->
    ({["person_age" := VInt 30]} : record) !! k = tagged_record !! k.
Proof.
  intros k Hk. unfold tagged_record. rewrite lookup_insert_ne; [reflexivity|].
  intros <-. unfold known_keys, numeric_keys, group_names in Hk. simpl in Hk.
  repeat (apply elem_of_cons in Hk as [Hk|Hk]; [discriminate|]).
  now apply elem_of_nil in Hk.
Qed.

Lemma build_feature_vector_known_keys_witness :
  (forall k, k ∈ known_keys ->
     ({["person_age" := VInt 30]} : record) !! k = tagged_record !! k) /\
  @build_feature_vector test_env default_model {["person_age" := VInt 30]}
  = @build_feature_vector test_env default_model tagged_record.
Proof.
  split; [exact tagged_record_agrees|].
  apply (@build_feature_vector_known_keys test_env default_model
           {["person_age" := VInt 30]} tagged_record).
  exact tagged_record_agrees.
Defined.

(** ** The request handlers *)

Section Handlers.
Context `{E : Env}.

Lemma empty_record_numeric_ok : numeric_ok ∅.
Proof.
  intros k _. unfold get. rewrite lookup_empty. simpl.
  eexists. vm_compute. reflexivity.
Qed.

(** C10, as amended. An empty JSON object is turned away with the 400 "No
    input data provided" answer, the very answer to every other falsy JSON
    payload ([null], [false], 0, an empty string or list), although the
    encoder accepts the empty record and gives it the vector of the
    defaults. *)
Theorem predict_rejects_empty_record : forall self,
  predict (Some self) (Json (VDict ∅))
  = (ErrorBody "No input data provided", 400%Z) /\
  (forall data, truthy data = false ->
     predict (Some self) (Json data) = predict (Some self) (Json (VDict ∅))) /\
  predict (Some self) (Json VNone) = predict (Some self) (Json (VDict ∅)) /\
  (exists row,
     build_feature_vector self ∅
     = Ok {| columns := feature_names self; rows := [row] |} /\
     length row = length (feature_names self)) /\
  build_feature_vector self ∅ = build_feature_vector self spelled_defaults.
Proof.
  intros self.
  assert (forall data, truthy data = false ->
            predict (Some self) (Json data)
            = (ErrorBody "No input data provided", 400%Z)) as Hfalsy.
  { intros data Hf. unfold predict. now rewrite Hf. }
  assert (truthy (VDict ∅) = false) as Hempty.
  { unfold truthy. now rewrite bool_decide_eq_true_2 by reflexivity. }
  split; [now apply Hfalsy|]. split; [|split; [|split]].
  - intros data Hf. now rewrite !Hfalsy.
  - now rewrite !Hfalsy.
  - destruct (build_feature_vector_accepts self ∅ empty_record_numeric_ok)
      as [df Hdf].
    destruct (build_feature_vector_inv _ _ _ Hdf)
      as (nm & row & _ & _ & -> & Hlen & _).
    exists row. split; [exact Hdf | exact Hlen].
  - unfold build_feature_vector, get. reflexivity.
Qed.

(** C7. When loading the model fails at start-up, both routes answer every
    request with the 500 "Model not loaded" error, whatever the payload and
    whatever reading it would do. *)
Theorem model_not_loaded : forall e,
  __init__ MODEL_FILENAME = Raise e ->
  serve GET_defaults = (ErrorBody "Model not loaded", 500%Z) /\
  forall request_json,
    serve (POST_predict request_json) = (ErrorBody "Model not loaded", 500%Z).
Proof.
  intros e Hinit. unfold serve, api_model. rewrite Hinit.
  split; [reflexivity | intros request_json; reflexivity].
Qed.

End Handlers.

(** C10, as stated, fails where [request.json] aborts a request that carries
    no payload: the request does not reach the test of [data], and the
    answer is the framework's 415, not the handler's 400. *)
Lemma predict_without_payload :
  @predict test_env (Some default_model) (HttpAbort 415) = (AbortBody, 415%Z) /\
  @predict test_env (Some default_model) (Json (VDict ∅))
  = (ErrorBody "No input data provided", 400%Z) /\
  @predict test_env (Some default_model) (HttpAbort 415)
  <> @predict test_env (Some default_model) (Json (VDict ∅)).
Proof.
  split; [reflexivity|]. split; [vm_compute; reflexivity|].
  vm_compute. discriminate.
Qed.

Lemma model_not_loaded_witness :
  @__init__ (stub_env None false None) MODEL_FILENAME
  = Raise (FileNotFoundError "Model file not found: xgboost_model.joblib") /\
  @serve (stub_env None false None) GET_defaults
  = (ErrorBody "Model not loaded", 500%Z) /\
  forall request_json,
    @serve (stub_env None false None) (POST_predict request_json)
    = (ErrorBody "Model not loaded", 500%Z).
Proof.
  split; [reflexivity|].
  apply (@model_not_loaded (stub_env None false None)
           (FileNotFoundError "Model file not found: xgboost_model.joblib")).
  reflexivity.
Defined.

(** ** The background sampler *)

Section Sampler.
Context `{E : Env}.

(** The encoder reads nothing of the model but its [feature_names]. *)
Lemma build_feature_vector_names m1 m2 inputs :
  feature_names m1 = feature_names m2 ->
  build_feature_vector m1 inputs = build_feature_vector m2 inputs.
Proof.
  intros Hnames. unfold build_feature_vector, _one_hot_columns.
  now rewrite Hnames.
Qed.

Lemma background_rows_names m1 m2 n rng :
  feature_names m1 = feature_names m2 ->
  background_rows m1 n rng = background_rows m2 n rng.
Proof.
  intros Hnames. revert rng. induction n as [|n IH]; intros rng; simpl;
    [reflexivity|].
  destruct (draw_sample rng) as [[sample rng']|]; cbn [bind]; [|reflexivity].
  rewrite (build_feature_vector_names m1 m2 _ Hnames).
  destruct (build_feature_vector m2 sample); cbn [bind]; [|reflexivity].
  now rewrite IH.
Qed.

(** Each numeric draw succeeds: the default it is centred on is a number. *)
Lemma draw_numeric_ok key :
  key ∈ numeric_keys ->
  exists loc, forall scale lo hi rng,
    draw_numeric key scale lo hi rng
    = Ok (clip (fst (rng_normal loc scale rng)) lo hi,
          snd (rng_normal loc scale rng)).
Proof.
  intros Hk. unfold numeric_keys in Hk.
  repeat (apply elem_of_cons in Hk as [->|Hk];
    [unfold draw_numeric;
     match goal with
     | |- context [getitem ideal_defaults ?k] =>
         let d := eval vm_compute in (getitem ideal_defaults k) in
         change (getitem ideal_defaults k) with d
     end; cbn [bind];
     match goal with
     | |- context [py_float ?v] =>
         let f := eval vm_compute in (py_float v) in
         change (py_float v) with f;
         match f with Ok ?loc => exists loc end
     end; cbn [bind];
     intros scale lo hi rng;
     destruct (rng_normal _ scale rng); reflexivity|]).
  now apply elem_of_nil in Hk.
Qed.

(** A sample is always drawn, and the encoder accepts it. *)
Lemma draw_sample_ok rng :
  exists sample rng',
    draw_sample rng = Ok (sample, rng') /\ numeric_ok sample.
Proof.
  unfold draw_sample.
  repeat match goal with
  | |- context [draw_numeric ?k ?s ?lo ?hi ?r] =>
      let H := fresh "H" in
      destruct (draw_numeric_ok k) as [? H];
      [unfold numeric_keys; set_solver|];
      rewrite (H s lo hi r); clear H; cbn [bind fst snd]
  end.
  repeat match goal with
  | |- context [rng_choice ?opts ?r] => destruct (rng_choice opts r)
  end.
  do 2 eexists. split; [reflexivity|].
  intros k Hk. unfold numeric_keys in Hk.
  repeat (apply elem_of_cons in Hk as [->|Hk];
          [eexists; vm_compute; reflexivity|]).
  now apply elem_of_nil in Hk.
Qed.

(** The loop builds [n] one-row frames, each through the encoder. *)
Lemma background_rows_ok self n rng :
  exists frames,
    background_rows self n rng = Ok frames /\
    length frames = n /\
    Forall (fun f => exists sample row,
              build_feature_vector self sample = Ok f /\
              f = {| columns := feature_names self; rows := [row] |}) frames.
Proof.
  revert rng. induction n as [|n IH]; intros rng; simpl.
  - exists []. auto.
  - destruct (draw_sample_ok rng) as (sample & rng' & -> & Hok). cbn [bind].
    destruct (build_feature_vector_accepts self sample Hok) as [f Hf].
    rewrite Hf. cbn [bind].
    destruct (IH rng') as (frames & -> & Hlen & Hall). cbn [bind].
    eexists. split; [reflexivity|]. split; [simpl; lia|].
    constructor; [|exact Hall].
    destruct (build_feature_vector_inv _ _ _ Hf)
      as (nm & row & _ & _ & Hshape & _).
    eauto.
Qed.

Lemma flat_map_single_rows (frames : list DataFrame) (P : list float -> Prop) :
  Forall (fun f => exists row, rows f = [row] /\ P row) frames ->
  length (flat_map rows frames) = length frames /\
  Forall P (flat_map rows frames).
Proof.
  induction 1 as [|f frames (row & Hf & HP) _ [IHl IHP]]; simpl; [auto|].
  rewrite Hf. simpl. split; [lia | now constructor].
Qed.

(** The frames of the loop are the encoder's vectors of the samples drawn
    one after the other. *)
Lemma background_rows_samples self n rng frames :
  background_rows self n rng = Ok frames ->
  exists samples,
    samples_from rng n = Ok samples /\
    Forall2 (fun sample f => build_feature_vector self sample = Ok f)
      samples frames.
Proof.
  revert rng frames. induction n as [|n IH]; intros rng frames; simpl.
  - intros [= <-]. exists []. split; [reflexivity | constructor].
  - destruct (draw_sample rng) as [[sample rng']|]; cbn [bind]; [|discriminate].
    destruct (build_feature_vector self sample) as [f|] eqn:Hf; cbn [bind];
      [|discriminate].
    destruct (background_rows self n rng') as [rest|] eqn:Hrest; cbn [bind];
      [|discriminate].
    intros [= <-]. destruct (IH _ _ Hrest) as (samples & -> & Hall).
    cbn [bind]. exists (sample :: samples). split; [reflexivity|].
    now constructor.
Qed.

Lemma flat_map_rows_Forall2 {A} (P : A -> list float -> Prop) (l : list A)
    (frames : list DataFrame) :
  Forall2 (fun a f => exists row, rows f = [row] /\ P a row) l frames ->
  Forall2 P l (flat_map rows frames).
Proof.
  induction 1 as [|a f l frames (row & Hf & HP) _ IH]; simpl; [constructor|].
  rewrite Hf. simpl. now constructor.
Qed.

End Sampler.

(** Each numeric draw is centred on a number that no environment has a say
    in. *)
Lemma draw_pair {S} (p : float * S) lo hi :
  (let '(x, rng) := p in Ok (clip x lo hi, rng))
  = Ok (clip (fst p) lo hi, snd p).
Proof. now destruct p. Qed.

Lemma draw_numeric_loc key :
  key ∈ numeric_keys ->
  exists loc, forall (E : Env) scale lo hi rng,
    @draw_numeric E key scale lo hi rng
    = Ok (clip (fst (rng_normal loc scale rng)) lo hi,
          snd (rng_normal loc scale rng)).
Proof.
  intros Hk. unfold numeric_keys in Hk.
  repeat (apply elem_of_cons in Hk as [->|Hk];
    [eexists; intros E scale lo hi rng; unfold draw_numeric;
     match goal with
     | |- context [getitem ideal_defaults ?k] =>
         let d := eval vm_compute in (getitem ideal_defaults k) in
         change (getitem ideal_defaults k) with d
     end; cbn [bind];
     match goal with
     | |- context [py_float ?v] =>
         let f := eval vm_compute in (py_float v) in
         change (py_float v) with f
     end; cbn [bind]; apply draw_pair|]).
  now apply elem_of_nil in Hk.
Qed.

(** *** Two runs of the sampler *)

Section TwoRuns.
Context (E1 E2 : Env) (R : @rng_state E1 -> @rng_state E2 -> Prop).
Hypothesis Hdraws : same_draws E1 E2 R.
Hypothesis Hupper : forall s, @upper E1 s = @upper E2 s.

(** The encoder reads a drawn sample alike in both runs: its numbers are
    floats already and its categories strings. *)
Lemma build_feature_vector_runs self (x1 x2 x3 x4 x5 x6 x7 : float)
    (c1 c2 c3 c4 : string) :
  let sample : record :=
    list_to_map [
      ("person_age", VFloat x1);
      ("person_income", VFloat x2);
      ("person_emp_length", VFloat x3);
      ("loan_amnt", VFloat x4);
      ("loan_int_rate", VFloat x5);
      ("loan_percent_income", VFloat x6);
      ("cb_person_cred_hist_length", VFloat x7);
      ("person_home_ownership", VStr c1);
      ("loan_intent", VStr c2);
      ("loan_grade", VStr c3);
      ("cb_person_default_on_file", VStr c4)
    ] in
  @build_feature_vector E1 self sample = @build_feature_vector E2 self sample.
Proof.
  intros sample. rewrite !build_feature_vector_eq.
  assert (@numeric_map_of E1 sample = @numeric_map_of E2 sample) as ->.
  { unfold numeric_map_of. apply mapM_ext. intros k Hk.
    unfold numeric_keys in Hk.
    repeat (apply elem_of_cons in Hk as [->|Hk]; [vm_compute; reflexivity|]).
    now apply elem_of_nil in Hk. }
  destruct (@numeric_map_of E2 sample) as [nm|]; cbn [bind]; [|reflexivity].
  assert (forall g, g ∈ group_names ->
            @category_value E1 sample g = @category_value E2 sample g) as Hcat.
  { intros g Hg. unfold category_value, group_names in *.
    repeat (apply elem_of_cons in Hg as [->|Hg];
      [match goal with
       | |- context [get sample ?k ?d] =>
           let v := eval vm_compute in (get sample k d) in
           change (get sample k d) with v
       end; cbn [py_str]; apply Hupper|]).
    now apply elem_of_nil in Hg. }
  unfold encode_data.
  rewrite !(Hcat _) by (unfold group_names; set_solver).
  reflexivity.
Qed.

Lemma draw_sample_runs s1 s2 :
  R s1 s2 ->
  exists sample s1' s2',
    @draw_sample E1 s1 = Ok (sample, s1') /\
    @draw_sample E2 s2 = Ok (sample, s2') /\
    R s1' s2' /\
    forall self,
      @build_feature_vector E1 self sample = @build_feature_vector E2 self sample.
Proof.
  intros HR. unfold draw_sample.
  repeat match goal with
  | HR : R ?a ?b |- context [@draw_numeric E1 ?k ?s ?lo ?hi ?a] =>
      let H := fresh "H" in
      let loc := fresh "loc" in
      destruct (draw_numeric_loc k) as [loc H];
      [unfold numeric_keys; set_solver|];
      rewrite (H E1 s lo hi a), (H E2 s lo hi b); clear H; cbn [bind];
      let Hx := fresh "Hx" in
      let HR' := fresh "HR" in
      destruct (proj1 Hdraws loc s a b HR) as [Hx HR'];
      rewrite Hx; clear Hx HR;
      revert HR';
      generalize (snd (@rng_normal E1 loc s a)), (snd (@rng_normal E2 loc s b));
      generalize (clip (fst (@rng_normal E2 loc s b)) lo hi);
      clear loc; intros ? ? ? HR'
  end.
  repeat match goal with
  | HR : R ?a ?b |- context [@rng_choice E1 ?opts ?a] =>
      let Hc := fresh "Hc" in
      let HR' := fresh "HR" in
      destruct (proj2 Hdraws opts a b HR) as [Hc HR'];
      destruct (@rng_choice E1 opts a), (@rng_choice E2 opts b);
      cbn [fst snd] in Hc, HR'; subst; clear HR
  end.
  do 3 eexists. split; [reflexivity|]. split; [reflexivity|].
  split; [eassumption|]. intros self. apply build_feature_vector_runs.
Qed.

Lemma background_rows_runs m1 m2 n s1 s2 :
  feature_names m1 = feature_names m2 -> R s1 s2 ->
  @background_rows E1 m1 n s1 = @background_rows E2 m2 n s2.
Proof.
  intros Hnames. revert s1 s2. induction n as [|n IH]; intros s1 s2 HR; simpl;
    [reflexivity|].
  destruct (draw_sample_runs s1 s2 HR) as (sample & s1' & s2' & -> & -> & HR' & Hv).
  cbn [bind]. rewrite (Hv m1), (build_feature_vector_names m1 m2 _ Hnames).
  destruct (@build_feature_vector E2 m2 sample); cbn [bind]; [|reflexivity].
  now rewrite (IH _ _ HR').
Qed.

End TwoRuns.

(** C6. The background is the same in every run: it is a function of the
    schema, of [n] and of what the generator seeded with 42 draws, so two
    calls with the same [n], on models with the same [feature_names] and in
    environments whose generators seeded with 42 draw alike, return the same
    matrix, whatever else sets the environments apart. Without [n] the
    matrix has 200 rows under the schema's columns, the i-th row being the
    encoder's vector of the i-th sample drawn from that generator. *)
Theorem make_background_deterministic :
  forall (E1 E2 : Env) (R : @rng_state E1 -> @rng_state E2 -> Prop)
         (m1 m2 : CreditRiskModel) (n : option Z),
  R (@default_rng E1 42) (@default_rng E2 42) ->
  same_draws E1 E2 R ->
  (forall s, @upper E1 s = @upper E2 s) ->
  feature_names m1 = feature_names m2 ->
  @_make_background E1 m1 n = @_make_background E2 m2 n /\
  exists bg samples,
    @_make_background E1 m1 None = Ok bg /\
    @_make_background E1 m1 (Some 200%Z) = Ok bg /\
    columns bg = feature_names m1 /\
    length (rows bg) = 200 /\
    @samples_from E1 (@default_rng E1 42) 200 = Ok samples /\
    Forall2 (fun sample row =>
               @build_feature_vector E1 m1 sample
               = Ok {| columns := feature_names m1; rows := [row] |})
      samples (rows bg).
Proof.
  intros E1 E2 R m1 m2 n Hseed Hdraws Hupper Hnames. split.
  - unfold _make_background.
    now rewrite (background_rows_runs E1 E2 R Hdraws Hupper m1 m2 _ _ _
                   Hnames Hseed).
  - unfold _make_background. cbv [from_option id].
    destruct (@background_rows_ok E1 m1 (Z.to_nat 200) (default_rng 42))
      as (frames & Hrows & Hlen & Hall).
    rewrite Hrows. cbn [bind].
    destruct (@background_rows_samples E1 _ _ _ _ Hrows) as (samples & Hs & Hall2).
    destruct frames as [|f frames]; [discriminate|].
    exists {| columns := columns f; rows := flat_map rows (f :: frames) |}, samples.
    split; [reflexivity|]. split; [reflexivity|].
    destruct (flat_map_single_rows (f :: frames) (fun _ => True)) as [Hl _].
    { eapply Forall_impl; [exact Hall|].
      intros f' (sample & row & _ & ->). exists row. auto. }
    cbn [columns rows]. split; [|split; [|split]].
    + apply Forall_inv in Hall as (_ & row & _ & ->). reflexivity.
    + rewrite Hl. exact Hlen.
    + exact Hs.
    + apply flat_map_rows_Forall2.
      eapply Forall2_impl; [exact Hall2|].
      intros sample f' Hf'.
      destruct (@build_feature_vector_inv E1 _ _ _ Hf')
        as (nm & row & _ & _ & -> & _).
      exists row. split; [reflexivity | exact Hf'].
Qed.

(** Two runs that differ in all but the generator: one has shap and finds the
    model file, the other has neither. *)
Lemma make_background_deterministic_witness :
  @_make_background test_env default_model (Some 3%Z)
  = @_make_background (stub_env None false None)
      {| model := stub_artifact (Some default_features);
         feature_names := default_features |} (Some 3%Z).
Proof.
  apply (make_background_deterministic test_env (stub_env None false None) eq
           default_model
           {| model := stub_artifact (Some default_features);
              feature_names := default_features |} (Some 3%Z)).
  - reflexivity.
  - split; [intros ? ? s1 s2 -> | intros ? s1 s2 ->]; split; reflexivity.
  - reflexivity.
  - reflexivity.
Defined.

(** ** Sorting the attribution frame *)

Lemma eqb_leb x y : (x =? y)%float = true -> (x <=? y)%float = true.
Proof.
  rewrite FloatAxioms.eqb_spec, FloatAxioms.leb_spec. unfold SFeqb, SFleb.
  destruct (SFcompare _ _) as [[]|]; congruence.
Qed.

Section Sorting.
Context `{E : Env}.

Lemma insert_desc_perm df r l : insert_desc df r l ≡ₚ r :: l.
Proof.
  induction l as [|r' l IH]; simpl; [reflexivity|].
  destruct (_ || _); [|reflexivity].
  rewrite IH. apply Permutation_swap.
Qed.

(** Whatever the order of equal keys, a row lands behind the keys above its
    own and before the keys below. *)
Lemma insert_desc_sorted df r l :
  is_nan (abs_shap r) = false ->
  Forall (fun x => is_nan (abs_shap x) = false) l ->
  StronglySorted key_ge l ->
  StronglySorted key_ge (insert_desc df r l).
Proof.
  intros Hr Hl Hs. induction Hs as [|r' l Hs IH Hall]; simpl.
  - repeat constructor.
  - apply Forall_cons in Hl as [Hr' Hl].
    destruct (abs_shap r <? abs_shap r')%float eqn:Hlt; cbn [orb].
    + constructor; [now apply IH|].
      rewrite insert_desc_perm. constructor; [|exact Hall].
      now apply ltb_leb.
    + destruct ((abs_shap r =? abs_shap r')%float && sorted_after df r r')
        eqn:Htie.
      * apply andb_true_iff in Htie as [Heq _].
        constructor; [now apply IH|].
        rewrite insert_desc_perm. constructor; [|exact Hall].
        now apply eqb_leb.
      * assert (key_ge r r') as Hge by now apply not_ltb_leb.
        constructor; [now constructor|].
        constructor; [exact Hge|].
        eapply Forall_impl; [exact Hall|].
        intros z Hz. unfold key_ge in *. eapply leb_trans; eauto.
Qed.

Lemma sort_numbers df (l : list ShapRow) :
  Forall (fun x => is_nan (abs_shap x) = false) l ->
  StronglySorted key_ge (foldr (insert_desc df) [] l) /\
  foldr (insert_desc df) [] l ≡ₚ l.
Proof.
  induction 1 as [|r l Hr Hl [IHs IHp]]; simpl.
  - split; [constructor | reflexivity].
  - split.
    + apply insert_desc_sorted; auto. now rewrite IHp.
    + now rewrite insert_desc_perm, IHp.
Qed.

Lemma nan_split (l : list ShapRow) :
  filter (fun r => is_nan (abs_shap r) = false) l
  ++ filter (fun r => is_nan (abs_shap r) = true) l ≡ₚ l.
Proof.
  induction l as [|r l IH]; [reflexivity|].
  destruct (is_nan (abs_shap r)) eqn:Hr.
  - rewrite (filter_cons_False (fun r => is_nan (abs_shap r) = false))
      by congruence.
    rewrite (filter_cons_True (fun r => is_nan (abs_shap r) = true))
      by assumption.
    rewrite <- Permutation_middle. now rewrite IH.
  - rewrite (filter_cons_True (fun r => is_nan (abs_shap r) = false))
      by assumption.
    rewrite (filter_cons_False (fun r => is_nan (abs_shap r) = true))
      by congruence.
    simpl. now rewrite IH.
Qed.

(** [sort_values] rearranges the rows, keys decreasing and NaN keys last. *)
Lemma sort_values_desc_perm l : sort_values_desc l ≡ₚ l.
Proof.
  unfold sort_values_desc.
  destruct (sort_numbers l (filter (fun r => is_nan (abs_shap r) = false) l))
    as [_ Hp].
  { apply Forall_forall. intros x Hx. now apply list_elem_of_filter in Hx. }
  rewrite Hp. apply nan_split.
Qed.


Lemma sort_values_desc_length l : length (sort_values_desc l) = length l.
Proof. apply Permutation_length, sort_values_desc_perm. Qed.

End Sorting.

(** ** Attribution *)

Section Attribution.
Context `{E : Env}.

Lemma shap_frame_names names arr frame :
  shap_frame names arr = Ok frame -> frame.*1 = names.
Proof.
  revert arr frame. induction names as [|n names IH]; intros [|v arr] frame;
    simpl; try discriminate.
  - now intros [= <-].
  - destruct (shap_frame names arr) as [rest|] eqn:Hrest; cbn [bind];
      [|discriminate].
    intros [= <-]. rewrite fmap_cons. simpl. now rewrite (IH _ _ Hrest).
Qed.


(** What a returned explanation is made of. *)
Lemma explain_shap_inv self inputs df meta :
  explain_shap self inputs = Ok (df, meta) ->
  exists lib X_row out values base rest frame proba pred,
    shap = Some lib /\
    build_feature_vector self inputs = Ok X_row /\
    ((exists bg,
        _make_background self (Some 200%Z) = Ok bg /\
        tree_explainer lib (model self) bg X_row = Ok (out, base :: rest)) \/
     ((forall bg o b r,
         _make_background self (Some 200%Z) = Ok bg ->
         tree_explainer lib (model self) bg X_row <> Ok (o, b :: r)) /\
      generic_explainer lib (model self) X_row X_row = Ok (out, base :: rest))) /\
    contributions out values /\
    shap_frame (feature_names self) values = Ok frame /\
    df = sort_values_desc (map shap_row frame) /\
    predict_proba self inputs = Ok (proba, pred) /\
    meta = {| base_value := base; prediction_probability := proba |}.
Proof.
  unfold explain_shap. destruct shap as [lib|]; [|discriminate].
  destruct (build_feature_vector self inputs) as [X_row|] eqn:HX; cbn [bind];
    [|discriminate].
  destruct (try_except _ _) as [[out base]|] eqn:Htry; cbn [bind];
    [|discriminate].
  match goal with
  | |- context [bind ?c _] => destruct c as [values|] eqn:Hvalues
  end; cbn [bind]; [|discriminate].
  destruct (shap_frame (feature_names self) values) as [frame|] eqn:Hframe;
    cbn [bind]; [|discriminate].
  destruct (predict_proba self inputs) as [[proba pred]|] eqn:Hp; cbn [bind];
    [|discriminate].
  intros [= <- <-].
  assert (contributions out values) as Hc.
  { unfold contributions. destruct out as [per_class|flat].
    - destruct per_class as [|c0 [|c1 rest]]; try discriminate.
      injection Hvalues as <-. right. eauto.
    - injection Hvalues as <-. now left. }
  assert (try_except
            (let* (values, base_values) :=
               generic_explainer lib (model self) X_row X_row in
             let* base_value := first base_values in
             Ok (values, base_value))
            (fun e2 =>
               Raise (RuntimeError
                        ("Failed to compute SHAP values: " +:+ str_exn e2)))
          = Ok (out, base) ->
          exists rest,
            generic_explainer lib (model self) X_row X_row
            = Ok (out, base :: rest)) as Hgen.
  { destruct (generic_explainer lib (model self) X_row X_row) as [[o bv]|];
      cbn [bind try_except]; [|discriminate].
    destruct bv as [|b rest]; cbn [first bind try_except]; [discriminate|].
    intros [= -> ->]. eauto. }
  exists lib, X_row, out, values, base.
  destruct (_make_background self (Some 200%Z)) as [bg|] eqn:Hbg;
    cbn [bind try_except] in Htry.
  - destruct (tree_explainer lib (model self) bg X_row) as [[o ev]|] eqn:Ht;
      cbn [bind try_except] in Htry.
    + destruct ev as [|b rest]; cbn [first bind try_except] in Htry.
      * destruct (Hgen Htry) as [rest Hg]. exists rest, frame, proba, pred.
        repeat (split; [first [reflexivity | assumption]|]).
        split; [|auto 6]. right. split; [|exact Hg].
        intros bg' o' b' r' [= <-]. rewrite Ht. discriminate.
      * injection Htry as <- <-. exists rest, frame, proba, pred.
        repeat (split; [first [reflexivity | assumption]|]).
        split; [|auto 6]. left. eauto.
    + destruct (Hgen Htry) as [rest Hg]. exists rest, frame, proba, pred.
      repeat (split; [first [reflexivity | assumption]|]).
      split; [|auto 6]. right. split; [|exact Hg].
      intros bg' o' b' r' [= <-]. rewrite Ht. discriminate.
  - destruct (Hgen Htry) as [rest Hg]. exists rest, frame, proba, pred.
    repeat (split; [first [reflexivity | assumption]|]).
    split; [|auto 6]. right. split; [|exact Hg].
    intros bg' o' b' r' [=].
Qed.


(** X14. With the prediction made and the explanation failing, the handler
    of api.py answers 500 with the explanation's error alone. *)
Lemma predict_error_hides_prediction self inputs proba pred e :
  truthy (VDict inputs) = true ->
  predict_proba self inputs = Ok (proba, pred) ->
  explain_shap self inputs = Raise e ->
  predict (Some self) (Json (VDict inputs)) = (ErrorBody (str_exn e), 500%Z).
Proof.
  intros Htruthy Hproba Hshap. unfold predict. rewrite Htruthy.
  cbn [negb as_record bind]. rewrite Hproba. cbn [bind].
  destruct (risk_category proba). now rewrite Hshap.
Qed.

(** X15. In the same situation the page of app.py shows the prediction,
    and a note in place of the explanation. *)
Lemma on_predict_risk_keeps_prediction self inputs proba pred e :
  predict_proba self inputs = Ok (proba, pred) ->
  explain_shap self inputs = Raise e ->
  exists row,
    on_predict_risk self inputs
    = Ok [RiskHeading (fst (risk_category proba)) (snd (risk_category proba));
          ProbabilityMetric proba; PredictedClass pred; FeatureVector row;
          Info ("SHAP explanation not available: " +:+ str_exn e)].
Proof.
  intros Hproba Hshap. unfold on_predict_risk. rewrite Hproba. cbn [bind].
  destruct (risk_category proba) as [label color].
  unfold predict_proba in Hproba.
  destruct (build_feature_vector self inputs) as [row|]; [|discriminate].
  cbn [bind]. rewrite Hshap. now exists row.
Qed.

(** X10. The tree-aware method failing, the generic one is asked; both
    failing, [explain_shap] raises a RuntimeError whose text ends in the
    generic method's error. *)
Lemma explain_shap_both_fail self inputs lib X_row e1 e2 :
  shap = Some lib ->
  build_feature_vector self inputs = Ok X_row ->
  (forall background, tree_explainer lib (model self) background X_row = Raise e1) ->
  generic_explainer lib (model self) X_row X_row = Raise e2 ->
  explain_shap self inputs
  = Raise (RuntimeError ("Failed to compute SHAP values: " +:+ str_exn e2)).
Proof.
  intros Hlib HX Htree Hgeneric. unfold explain_shap. rewrite Hlib, HX.
  cbn [bind]. destruct (_make_background self (Some 200%Z)) as [bg|];
    cbn [bind try_except].
  - rewrite Htree. cbn [bind try_except]. now rewrite Hgeneric.
  - now rewrite Hgeneric.
Qed.

End Attribution.

(** *** The handlers at concrete requests *)


(** C4 on the code. The prediction of the request below succeeds, yet with
    shap missing, or with both of its methods failing, api.py answers 500
    with the error text and no prediction; app.py shows the prediction and a
    note. *)
Lemma predict_loses_prediction :
  @predict_proba no_shap_env default_model ideal_defaults
  = Ok (0.25%float, 0%Z) /\
  @predict no_shap_env (Some default_model) (Json (VDict ideal_defaults))
  = (ErrorBody
       "SHAP is not installed. Please install 'shap' to use explanations.",
     500%Z) /\
  @predict failing_env (Some default_model) (Json (VDict ideal_defaults))
  = (ErrorBody "Failed to compute SHAP values: Explainer", 500%Z) /\
  exists row,
    @on_predict_risk failing_env default_model ideal_defaults
    = Ok [RiskHeading "Medium Risk" "#f9a825"; ProbabilityMetric 0.25;
          PredictedClass 0; FeatureVector row;
          Info "SHAP explanation not available: Failed to compute SHAP values: Explainer"].
Proof.
  split; [vm_compute; reflexivity|].
  split; [vm_compute; reflexivity|].
  split; [vm_compute; reflexivity|].
  eexists. vm_compute. reflexivity.
Qed.

(** * Further properties of the code *)

(** ** The encoder, cell by cell *)

Section EncoderCells.
Context `{E : Env}.

Lemma assign_numeric_lookup numeric_map (data : gmap string float) k v :
  NoDup numeric_map.*1 -> (k, v) ∈ numeric_map -> is_Some (data !! k) ->
  assign_numeric numeric_map data !! k = Some v.
Proof.
  unfold assign_numeric. revert data.
  induction numeric_map as [|[k' v'] nm IH]; intros data Hnd Hin Hk.
  - now apply elem_of_nil in Hin.
  - rewrite fmap_cons in Hnd. apply NoDup_cons in Hnd as [Hk' Hnd]. simpl in *.
    apply elem_of_cons in Hin as [[= <- <-]|Hin].
    + rewrite bool_decide_eq_true_2 by assumption.
      change (foldl _ ?d nm) with (assign_numeric nm d).
      rewrite assign_numeric_other by assumption. apply lookup_insert_eq.
    + apply IH; [assumption..|].
      case_bool_decide; [|assumption]. rewrite lookup_insert_is_Some'. auto.
Qed.

Lemma numeric_map_of_elem inputs numeric_map k :
  numeric_map_of inputs = Ok numeric_map -> k ∈ numeric_keys ->
  exists f, py_float (get inputs k (VInt 0)) = Ok f /\ (k, f) ∈ numeric_map.
Proof.
  unfold numeric_map_of. generalize numeric_keys as keys. intros keys.
  revert numeric_map. induction keys as [|k' keys IH]; intros nm; simpl.
  - intros _ Hk. now apply elem_of_nil in Hk.
  - destruct (py_float (get inputs k' (VInt 0))) as [f|] eqn:Hf; cbn [bind];
      [|discriminate].
    destruct (mapM _ keys) as [nm'|] eqn:Hrest; cbn [bind]; [|discriminate].
    intros [= <-] [->|Hk]%elem_of_cons.
    + exists f. split; [exact Hf | set_solver].
    + destruct (IH _ eq_refl Hk) as (f' & Hf' & Hin). exists f'. set_solver.
Qed.

(** Outside the four groups the one-hot loops change nothing. *)
Lemma encode_data_ungrouped self inputs numeric_map k :
  group_of k = None ->
  encode_data self inputs numeric_map !! k
  = assign_numeric numeric_map
      (list_to_map (map (fun name => (name, 0%float)) (feature_names self)))
    !! k.
Proof.
  intros Hg. unfold encode_data.
  rewrite set_default_flag_lookup, !set_matching_lookup.
  rewrite !one_hot_columns_lookup by (unfold group_names; set_solver).
  assert (forall g', bool_decide
            (k ∈ filter (fun c => group_of c = Some g') (feature_names self))
          = false) as Hmem.
  { intros g'. apply bool_decide_eq_false_2. rewrite list_elem_of_filter, Hg.
    now intros [? _]. }
  now rewrite !Hmem.
Qed.

Lemma numeric_keys_NoDup : NoDup numeric_keys.
Proof.
  apply (bool_decide_eq_true_1 (NoDup numeric_keys)). vm_compute. reflexivity.
Qed.

Lemma group_of_numeric_None k : k ∈ numeric_keys -> group_of k = None.
Proof.
  intros Hk. destruct (group_of k) as [g|] eqn:Hg; [|reflexivity].
  now apply group_of_numeric in Hg.
Qed.

(** The cell under a numeric column is the coerced attribute. *)
Lemma encoded_numeric_cell self inputs df i k :
  build_feature_vector self inputs = Ok df ->
  k ∈ numeric_keys -> feature_names self !! i = Some k ->
  exists f, py_float (get inputs k (VInt 0)) = Ok f /\
            List.hd [] (rows df) !! i = Some f.
Proof.
  intros Hdf Hk Hi. apply build_feature_vector_inv in Hdf
    as (nm & row & Hnm & Hfst & -> & _ & Hget).
  destruct (numeric_map_of_elem _ _ _ Hnm Hk) as (f & Hf & Hin).
  exists f. split; [exact Hf|]. cbn [rows List.hd].
  rewrite (Hget _ _ Hi), encode_data_ungrouped by now apply group_of_numeric_None.
  apply assign_numeric_lookup; [rewrite Hfst; apply numeric_keys_NoDup|exact Hin|].
  rewrite zero_data_lookup, bool_decide_eq_true_2; [eauto|].
  apply list_elem_of_lookup; eauto.
Qed.

(** X2. Numeric attributes are copied through: in a returned vector the cell
    under a numeric column is [float] of the record's value, and 0.0 when the
    record lacks the attribute. *)
Theorem numeric_columns_copied : forall self inputs df i k,
  build_feature_vector self inputs = Ok df ->
  k ∈ numeric_keys -> feature_names self !! i = Some k ->
  (forall v, inputs !! k = Some v ->
     exists f, py_float v = Ok f /\ List.hd [] (rows df) !! i = Some f) /\
  (inputs !! k = None -> List.hd [] (rows df) !! i = Some 0%float).
Proof.
  intros self inputs df i k Hdf Hk Hi.
  destruct (encoded_numeric_cell _ _ _ _ _ Hdf Hk Hi) as (f & Hf & Hcell).
  unfold get in Hf. split.
  - intros v Hv. rewrite Hv in Hf. eauto.
  - intros Hnone. rewrite Hnone in Hf. simpl in Hf.
    assert (float_of_int 0 = Ok 0%float) as H0 by (vm_compute; reflexivity).
    rewrite H0 in Hf. now injection Hf as <-.
Qed.

(** X3. A column the encoder does not know (no numeric attribute, no group
    prefix) keeps the 0.0 it starts with, whatever the record holds. *)
Theorem unknown_columns_zero : forall self inputs df i name,
  build_feature_vector self inputs = Ok df ->
  feature_names self !! i = Some name ->
  name ∉ numeric_keys -> group_of name = None ->
  List.hd [] (rows df) !! i = Some 0%float.
Proof.
  intros self inputs df i name Hdf Hi Hnum Hg.
  apply build_feature_vector_inv in Hdf
    as (nm & row & _ & Hfst & -> & _ & Hget).
  cbn [rows List.hd]. rewrite (Hget _ _ Hi), encode_data_ungrouped by assumption.
  rewrite assign_numeric_other by now rewrite Hfst.
  rewrite zero_data_lookup, bool_decide_eq_true_2; [reflexivity|].
  apply list_elem_of_lookup; eauto.
Qed.

(** X4. Whatever the schema, the cell under an indicator column holds 1.0
    when the column name ends in an underscore and the uppercased value of
    its group (for the prior-default group: when the name ends in _Y and the
    value is Y), and 0.0 otherwise. *)
Theorem indicator_cell : forall self inputs df i col g,
  build_feature_vector self inputs = Ok df ->
  feature_names self !! i = Some col -> group_of col = Some g ->
  List.hd [] (rows df) !! i
  = Some (if selects inputs g col then 1%float else 0%float).
Proof.
  intros self inputs df i col g Hdf Hi Hg.
  apply build_feature_vector_inv in Hdf
    as (nm & row & _ & Hfst & -> & _ & Hget).
  cbn [rows List.hd]. rewrite (Hget _ _ Hi).
  apply encode_data_group; [assumption| |assumption].
  apply list_elem_of_lookup; eauto.
Qed.

(** X5. Categorical values are matched without regard to case: records that
    agree on the numeric attributes and whose categorical values have the
    same uppercase form get the same vector. *)
Theorem build_feature_vector_case_insensitive : forall self (r1 r2 : record),
  (forall k, k ∈ numeric_keys -> r1 !! k = r2 !! k) ->
  (forall g, g ∈ group_names -> category_value r1 g = category_value r2 g) ->
  build_feature_vector self r1 = build_feature_vector self r2.
Proof.
  intros self r1 r2 Hnum Hcat. rewrite !build_feature_vector_eq.
  assert (numeric_map_of r1 = numeric_map_of r2) as ->.
  { unfold numeric_map_of. apply mapM_ext. intros k Hk. unfold get.
    now rewrite (Hnum k Hk). }
  destruct (numeric_map_of r2) as [nm|]; cbn [bind]; [|reflexivity].
  unfold encode_data.
  rewrite !(Hcat _) by (unfold group_names; set_solver).
  reflexivity.
Qed.

End EncoderCells.

(** ** Risk tiers at the edges *)

(** X6. [risk_category] answers with one of three label and colour pairs
    and nothing else; a NaN probability is filed under High Risk, and so is
    every probability above 1, while every negative one is Low Risk. *)
Theorem risk_category_cases : forall p : float,
  (risk_category p = ("Low Risk", "#2e7d32") \/
   risk_category p = ("Medium Risk", "#f9a825") \/
   risk_category p = ("High Risk", "#c62828")) /\
  (is_nan p = true -> risk_category p = ("High Risk", "#c62828")) /\
  ((1 <? p)%float = true -> risk_category p = ("High Risk", "#c62828")) /\
  ((p <? 0)%float = true -> risk_category p = ("Low Risk", "#2e7d32")).
Proof.
  intros p. unfold risk_category. split; [|split; [|split]].
  - destruct (p <? 0.2)%float; [auto|]. destruct (p <? 0.5)%float; auto.
  - intros Hnan. now rewrite !(ltb_nan_l _ _ Hnan).
  - intros Hp.
    assert ((p <? 0.5)%float = false) as H5.
    { apply ltb_asym. eapply ltb_trans; [|exact Hp]. reflexivity. }
    assert ((p <? 0.2)%float = false) as H2.
    { apply ltb_asym. eapply ltb_trans; [|exact Hp]. reflexivity. }
    now rewrite H2, H5.
  - intros Hp.
    assert ((p <? 0.2)%float = true) as H2.
    { eapply ltb_trans; [exact Hp|]. reflexivity. }
    now rewrite H2.
Qed.

(** ** The sampler: sizes and ranges *)

Lemma leb_nonnan x y :
  (x <=? y)%float = true -> is_nan x = false /\ is_nan y = false.
Proof.
  intros Hle. apply leb_compare in Hle.
  split.
  - destruct (is_nan x) eqn:Hn; [|reflexivity]. apply is_nan_compare in Hn.
    destruct (Prim2SF x), (Prim2SF y), Hle; simpl in *; congruence.
  - destruct (is_nan y) eqn:Hn; [|reflexivity]. apply is_nan_compare in Hn.
    destruct (Prim2SF x), (Prim2SF y), Hle; simpl in *; congruence.
Qed.

Lemma leb_refl x : is_nan x = false -> (x <=? x)%float = true.
Proof.
  intros Hn. apply leb_compare.
  destruct (SFcompare (Prim2SF x) (Prim2SF x)) as [c|] eqn:Hc.
  - pose proof (SFcompare_opp _ _ _ Hc) as Ho. rewrite Hc in Ho.
    destruct c; simpl in Ho; auto; discriminate.
  - apply is_nan_compare in Hc. congruence.
Qed.

(** [np.clip] with bounds in order returns a NaN or a number between them. *)
Lemma clip_within lo hi x :
  (lo <=? hi)%float = true -> within lo hi (clip x lo hi).
Proof.
  intros Hle. destruct (leb_nonnan _ _ Hle) as [Hlo Hhi]. unfold clip, within.
  destruct (x <? lo)%float eqn:H1.
  - right. split; [now apply leb_refl | exact Hle].
  - destruct (hi <? x)%float eqn:H2.
    + right. split; [exact Hle | now apply leb_refl].
    + destruct (is_nan x) eqn:Hn; [now left|]. right.
      split; now apply not_ltb_leb.
Qed.

Section SamplerRanges.
Context `{E : Env}.

(** A sample holds, under each numeric attribute, a float clipped to the
    attribute's range. *)
Lemma draw_sample_ranges rng sample rng' k lo hi :
  draw_sample rng = Ok (sample, rng') ->
  (k, (lo, hi)) ∈ sample_ranges ->
  exists x, sample !! k = Some (VFloat x) /\ within lo hi x.
Proof.
  unfold draw_sample.
  repeat match goal with
  | |- context [draw_numeric ?k ?s ?lo ?hi ?r] =>
      let H := fresh "H" in
      destruct (draw_numeric_ok k) as [? H];
      [unfold numeric_keys; set_solver|];
      rewrite (H s lo hi r); clear H; cbn [bind fst snd]
  end.
  repeat match goal with
  | |- context [rng_choice ?opts ?r] => destruct (rng_choice opts r)
  end.
  intros [= <- _] Hk. unfold sample_ranges in Hk.
  repeat (apply elem_of_cons in Hk as [[= -> -> ->]|Hk];
          [eexists; split; [reflexivity|]; apply clip_within; reflexivity|]).
  now apply elem_of_nil in Hk.
Qed.

(** Each frame of the loop is the encoder's vector of a drawn sample. *)
Lemma background_rows_inv self n rng frames :
  background_rows self n rng = Ok frames ->
  length frames = n /\
  Forall (fun f => exists sample rng0 rng1,
            draw_sample rng0 = Ok (sample, rng1) /\
            build_feature_vector self sample = Ok f) frames.
Proof.
  revert rng frames. induction n as [|n IH]; intros rng frames; simpl.
  - intros [= <-]. auto.
  - destruct (draw_sample rng) as [[sample rng']|] eqn:Hs; cbn [bind];
      [|discriminate].
    destruct (build_feature_vector self sample) as [f|] eqn:Hf; cbn [bind];
      [|discriminate].
    destruct (background_rows self n rng') as [rest|] eqn:Hrest; cbn [bind];
      [|discriminate].
    intros [= <-]. destruct (IH _ _ Hrest) as [Hlen Hall].
    split; [simpl; lia|]. constructor; eauto.
Qed.

(** X7. [_make_background] with [n] below 1 raises ValueError (there is
    nothing to concatenate); with [n] from 1 on it returns, for every model
    and environment, a frame of exactly [n] rows under the schema's columns,
    each as long as the schema. *)
Theorem make_background_size : forall self (n : Z),
  ((n <= 0)%Z ->
   _make_background self (Some n) = Raise (ValueError NothingToConcatenate)) /\
  ((0 < n)%Z ->
   exists bg,
     _make_background self (Some n) = Ok bg /\
     columns bg = feature_names self /\
     length (rows bg) = Z.to_nat n /\
     Forall (fun row => length row = length (feature_names self)) (rows bg)).
Proof.
  intros self n. unfold _make_background. cbv [from_option id]. split.
  - intros Hn. replace (Z.to_nat n) with 0 by lia. reflexivity.
  - intros Hn.
    destruct (background_rows_ok self (Z.to_nat n) (default_rng 42))
      as (frames & Hrows & Hlen & Hall).
    rewrite Hrows. cbn [bind].
    destruct frames as [|f frames]; [simpl in Hlen; lia|].
    eexists. split; [reflexivity|]. cbn [columns rows].
    destruct (flat_map_single_rows (f :: frames)
                (fun row => length row = length (feature_names self)))
      as [Hl HP].
    { eapply Forall_impl; [exact Hall|].
      intros f' (sample & row & Hf & Hshape).
      destruct (build_feature_vector_inv _ _ _ Hf)
        as (nm & row' & _ & _ & -> & Hlen' & _).
      exists row'. auto. }
    split; [|split; [now rewrite Hl|exact HP]].
    apply Forall_inv in Hall as (_ & row & _ & ->). reflexivity.
Qed.

(** X8. In every row of the background the cell under a numeric column is
    a NaN or lies within the range its draw was clipped to (age 18..90,
    income 10000..300000, and so on). *)
Theorem background_numeric_ranges : forall self n bg i k lo hi,
  _make_background self n = Ok bg ->
  (k, (lo, hi)) ∈ sample_ranges ->
  feature_names self !! i = Some k ->
  Forall (fun row => exists x, row !! i = Some x /\ within lo hi x) (rows bg).
Proof.
  intros self n bg i k lo hi Hbg Hk Hi. unfold _make_background in Hbg.
  destruct (background_rows self _ _) as [frames|] eqn:Hrows; cbn [bind] in Hbg;
    [|discriminate].
  apply background_rows_inv in Hrows as [_ Hall].
  destruct frames as [|f0 frames0]; [discriminate|].
  injection Hbg as <-. cbn [rows].
  assert (k ∈ numeric_keys) as Hnum.
  { unfold sample_ranges in Hk. unfold numeric_keys.
    repeat (apply elem_of_cons in Hk as [[= -> _ _]|Hk]; [set_solver|]).
    now apply elem_of_nil in Hk. }
  apply (flat_map_single_rows (f0 :: frames0)
           (fun row => exists x, row !! i = Some x /\ within lo hi x)).
  eapply Forall_impl; [exact Hall|].
  intros f (sample & rng0 & rng1 & Hs & Hf).
  destruct (draw_sample_ranges _ _ _ _ _ _ Hs Hk) as (x & Hx & Hin).
  destruct (encoded_numeric_cell _ _ _ _ _ Hf Hnum Hi) as (x' & Hx' & Hcell).
  unfold get in Hx'. rewrite Hx in Hx'. simpl in Hx'. injection Hx' as <-.
  destruct (build_feature_vector_inv _ _ _ Hf)
    as (nm & row & _ & _ & -> & _ & _).
  exists row. split; [reflexivity|]. exists x. auto.
Qed.

End SamplerRanges.

(** ** An explainer's answer of the wrong length *)

Section AttributionPaths.
Context `{E : Env}.

Lemma shap_frame_mismatch names arr :
  length names <> length arr ->
  shap_frame names arr = Raise (ValueError UnequalLengths).
Proof.
  revert arr. induction names as [|n names IH]; intros [|v arr] Hlen; simpl in *;
    try reflexivity; try lia.
  rewrite IH by lia. reflexivity.
Qed.

(** X12. An explainer that answers with a number of values other than the
    number of features makes [explain_shap] raise ValueError: the frame of
    features and values cannot be built. *)
Theorem explain_shap_length_mismatch :
  forall self inputs lib X_row background arr base rest,
  shap = Some lib ->
  build_feature_vector self inputs = Ok X_row ->
  _make_background self (Some 200%Z) = Ok background ->
  tree_explainer lib (model self) background X_row
  = Ok (SvArray arr, base :: rest) ->
  length arr <> length (feature_names self) ->
  explain_shap self inputs = Raise (ValueError UnequalLengths).
Proof.
  intros self inputs lib X_row background arr base rest
    Hlib HX Hbg Htree Hlen.
  unfold explain_shap. rewrite Hlib, HX. cbn [bind]. rewrite Hbg.
  cbn [bind]. rewrite Htree. cbn [bind first try_except].
  rewrite shap_frame_mismatch by congruence. reflexivity.
Qed.

End AttributionPaths.

(** ** The prediction handler, case by case *)

Section HandlerCases.
Context `{E : Env}.

(** Records with the same vector get the same prediction and explanation. *)
Lemma same_vector_same_answers self (r1 r2 : record) :
  build_feature_vector self r1 = build_feature_vector self r2 ->
  predict_proba self r1 = predict_proba self r2 /\
  explain_shap self r1 = explain_shap self r2.
Proof.
  intros Hv.
  assert (predict_proba self r1 = predict_proba self r2) as Hp
    by (unfold predict_proba; now rewrite Hv).
  split; [exact Hp|]. unfold explain_shap. now rewrite Hv, Hp.
Qed.

Lemma build_feature_vector_agree self (r1 r2 : record) :
  (forall k, k ∈ known_keys -> r1 !! k = r2 !! k) ->
  build_feature_vector self r1 = build_feature_vector self r2.
Proof.
  intros Hagree.
  assert (forall k d, k ∈ known_keys -> get r1 k d = get r2 k d) as Hget.
  { intros k d Hk. unfold get. now rewrite (Hagree k Hk). }
  unfold build_feature_vector.
  rewrite !(Hget _ _) by (unfold known_keys, numeric_keys, group_names; set_solver).
  reflexivity.
Qed.

Lemma truthy_dict (d : record) : truthy (VDict d) = true <-> d <> ∅.
Proof.
  unfold truthy. rewrite negb_true_iff, bool_decide_eq_false. reflexivity.
Qed.

(** X18. The handler answers two non-empty records alike when they agree on
    the eleven known attributes: unknown keys change nothing in the
    response, yet they do make a record non-empty. *)
Theorem predict_ignores_unknown_keys : forall self (r1 r2 : record),
  r1 <> ∅ -> r2 <> ∅ ->
  (forall k, k ∈ known_keys -> r1 !! k = r2 !! k) ->
  predict (Some self) (Json (VDict r1)) = predict (Some self) (Json (VDict r2)).
Proof.
  intros self r1 r2 H1 H2 Hagree.
  destruct (same_vector_same_answers self r1 r2
              (build_feature_vector_agree self r1 r2 Hagree)) as [Hp Hs].
  apply truthy_dict in H1, H2. unfold predict. rewrite H1, H2.
  cbn [negb as_record bind]. now rewrite Hp, Hs.
Qed.

(** X16. A payload that is truthy but no JSON object (a number, a string, a
    list, [true]) is answered 500 with the text of the AttributeError that
    [data.get] raises on it; neither the estimator nor shap is reached. *)
Theorem predict_non_dict_payload : forall self data,
  truthy data = true -> (forall d, data <> VDict d) ->
  predict (Some self) (Json data)
  = (ErrorBody (str_exn (AttributeError data)), 500%Z).
Proof.
  intros self data Ht Hnd. unfold predict. rewrite Ht. cbn [negb].
  destruct data; try reflexivity. now destruct (Hnd d).
Qed.

(** X17. The answers of /api/predict by kind. Reading [request.json] comes
    after the test of the model and before the test of the payload: when it
    aborts on a loaded model, the answer is the framework's, with the status
    of the abort, and in no other case. The handler's own answers have
    status 200, 400 or 500: 400 with "No input data provided" exactly when
    the model is loaded and the payload read is falsy, and a prediction
    only with 200. *)
Theorem predict_status : forall model request_json,
  (fst (predict model request_json) = AbortBody <->
   (exists m, model = Some m) /\ exists status, request_json = HttpAbort status) /\
  (forall m status, model = Some m -> request_json = HttpAbort status ->
     predict model request_json = (AbortBody, status)) /\
  (predict model request_json = (ErrorBody "No input data provided", 400%Z) <->
   (exists m, model = Some m) /\
   exists data, request_json = Json data /\ truthy data = false) /\
  (forall p, fst (predict model request_json) = PredictionBody p ->
     snd (predict model request_json) = 200%Z) /\
  (fst (predict model request_json) <> AbortBody ->
   snd (predict model request_json) = 200%Z \/
   snd (predict model request_json) = 400%Z \/
   snd (predict model request_json) = 500%Z).
Proof.
  intros model request_json. unfold predict.
  destruct model as [m|]; cbn [fst snd].
  - destruct request_json as [data|status]; cbn [fst snd].
    + destruct (truthy data) eqn:Ht; cbn [negb fst snd].
      * match goal with
        | |- context [match ?a with Ok _ => _ | Raise _ => _ end] => destruct a
        end; cbn [fst snd].
        -- split; [split; [discriminate | intros [_ [? ?]]; discriminate]|].
           split; [discriminate|].
           split; [split; [discriminate|]|auto].
           intros [_ (d & [= <-] & Hd)]. congruence.
        -- split; [split; [discriminate | intros [_ [? ?]]; discriminate]|].
           split; [discriminate|].
           split; [split; [discriminate|]|split; [discriminate | auto]].
           intros [_ (d & [= <-] & Hd)]. congruence.
      * split; [split; [discriminate | intros [_ [? ?]]; discriminate]|].
        split; [discriminate|].
        split; [split; eauto|split; [discriminate | auto]].
    + split; [split; eauto|].
      split; [intros ? ? _ [= <-]; reflexivity|].
      split; [split; [discriminate | intros [_ (? & ? & _)]; discriminate]|].
      split; [discriminate | intros []; reflexivity].
  - split; [split; [discriminate | intros [[? ?] _]; discriminate]|].
    split; [discriminate|].
    split; [split; [discriminate | intros [[? ?] _]; discriminate]|].
    split; [discriminate | auto].
Qed.

(** X19. A 200 answer is consistent with itself: it comes from a loaded
    model and a non-empty JSON object, carries the estimator's probability
    and label for that record, the tier of that probability, the same
    probability a second time, and as many attribution records as there are
    features, up to 20. *)
Theorem predict_ok_consistent : forall model request_json p status,
  predict model request_json = (PredictionBody p, status) ->
  status = 200%Z /\
  exists m inputs,
    model = Some m /\ request_json = Json (VDict inputs) /\ inputs <> ∅ /\
    predict_proba m inputs = Ok (r_probability p, r_prediction p) /\
    risk_category (r_probability p) = (r_risk_label p, r_risk_color p) /\
    r_prediction_probability p = r_probability p /\
    length (r_shap_values p) = min 20 (length (feature_names m)).
Proof.
  intros model request_json p status. unfold predict.
  destruct model as [m|]; [|discriminate].
  destruct request_json as [data|]; [|discriminate].
  destruct (truthy data) eqn:Ht; cbn [negb]; [|discriminate].
  destruct data as [| | | | | |inputs]; cbn [as_record bind];
    try discriminate.
  destruct (predict_proba m inputs) as [[proba pred]|] eqn:Hp; cbn [bind];
    [|discriminate].
  destruct (risk_category proba) as [label color] eqn:Hrisk.
  destruct (explain_shap m inputs) as [[df meta]|] eqn:Hs; cbn [bind];
    [|discriminate].
  intros [= <- <-]. split; [reflexivity|]. exists m, inputs.
  cbn [r_probability r_prediction r_risk_label r_risk_color r_shap_values
       r_prediction_probability].
  destruct (explain_shap_inv _ _ _ _ Hs)
    as (lib & X_row & out & values & base & rest & frame & proba' & pred'
        & _ & _ & _ & _ & Hframe & Hdf & Hp' & Hmeta).
  rewrite Hp in Hp'. injection Hp' as <- <-.
  apply shap_frame_names in Hframe as Hnames.
  repeat split; auto.
  - now apply truthy_dict.
  - now rewrite Hmeta.
  - rewrite length_take, Hdf, sort_values_desc_length, length_map.
    rewrite <- Hnames, length_fmap. lia.
Qed.

Lemma ideal_defaults_accepted : numeric_ok ideal_defaults.
Proof.
  intros k Hk. unfold numeric_keys in Hk.
  repeat (apply elem_of_cons in Hk as [->|Hk];
          [eexists; vm_compute; reflexivity|]).
  now apply elem_of_nil in Hk.
Qed.

(** X20. What /api/defaults serves can be posted back: for every model and
    environment the defaults are a non-empty record the encoder accepts, so
    /api/predict answers them neither 400 nor with a coercion error, and
    answers 200 whenever the estimator and the explanation succeed. *)
Theorem defaults_round_trip : forall self,
  get_defaults (Some self) = (DefaultsBody ideal_defaults, 200%Z) /\
  snd (predict (Some self) (Json (VDict ideal_defaults))) <> 400%Z /\
  (exists row,
     build_feature_vector self ideal_defaults
     = Ok {| columns := feature_names self; rows := [row] |}) /\
  (forall proba pred df meta,
     predict_proba self ideal_defaults = Ok (proba, pred) ->
     explain_shap self ideal_defaults = Ok (df, meta) ->
     snd (predict (Some self) (Json (VDict ideal_defaults))) = 200%Z).
Proof.
  intros self.
  assert (truthy (VDict ideal_defaults) = true) as Ht
    by (vm_compute; reflexivity).
  split; [reflexivity|]. split; [|split].
  - unfold predict. rewrite Ht. cbn [negb].
    match goal with
    | |- context [match ?a with Ok _ => _ | Raise _ => _ end] => destruct a
    end; discriminate.
  - destruct (build_feature_vector_accepts self _ ideal_defaults_accepted)
      as [df Hdf].
    destruct (build_feature_vector_inv _ _ _ Hdf)
      as (nm & row & _ & _ & -> & _). eauto.
  - intros proba pred df meta Hp Hs. unfold predict. rewrite Ht.
    cbn [negb as_record bind]. rewrite Hp. cbn [bind].
    destruct (risk_category proba). rewrite Hs. reflexivity.
Qed.

End HandlerCases.

(** ** The groups of [_one_hot_columns] *)

Lemma one_hot_fold_lookup (self : CreditRiskModel) g :
  _one_hot_columns self !! g
  = (if bool_decide (g ∈ group_names)
     then Some (filter (fun c => group_of c = Some g) (feature_names self))
     else None).
Proof.
  unfold _one_hot_columns.
  set (step := fun (groups : gmap string (list string)) (col : string) => _).
  set (init := list_to_map _ : gmap string (list string)).
  assert (forall col groups, step groups col =
            match group_of col with
            | Some g' => group_append g' col groups
            | None => groups
            end) as Hstep.
  { intros col groups. unfold step, group_of.
    repeat match goal with
    | |- context [startswith col ?p] => destruct (startswith col p)
    end; reflexivity. }
  assert (forall names (G : gmap string (list string)),
            foldl step G names !! g
            = (fun l0 => l0 ++ filter (fun c => group_of c = Some g) names)%list
                <$> G !! g) as Hfold.
  { induction names as [|a names IH]; intros G; simpl.
    - destruct (G !! g); simpl; [now rewrite app_nil_r | reflexivity].
    - rewrite IH, Hstep, filter_cons.
      destruct (group_of a) as [g'|] eqn:Ha.
      + unfold group_append. rewrite lookup_alter.
        destruct (decide (g' = g)) as [->|Hne].
        * rewrite decide_True by reflexivity.
          destruct (G !! g); simpl; [now rewrite <- app_assoc | reflexivity].
        * rewrite decide_False by congruence. reflexivity.
      + rewrite decide_False by congruence. reflexivity. }
  rewrite Hfold. case_bool_decide as Hg.
  - unfold group_names in Hg.
    repeat (apply elem_of_cons in Hg as [->|Hg]; [reflexivity|]).
    now apply elem_of_nil in Hg.
  - assert (init !! g = None) as ->; [|reflexivity].
    apply not_elem_of_list_to_map_1. exact Hg.
Qed.

Lemma group_of_prefix col g :
  g ∈ group_names ->
  (group_of col = Some g <-> startswith col (g +:+ "_") = true).
Proof.
  intros Hg. unfold group_names in Hg. unfold group_of.
  repeat (apply elem_of_cons in Hg as [->|Hg];
    [cbn [String.append];
     repeat match goal with
     | |- context [startswith col ?p] =>
         let H := fresh "H" in destruct (startswith col p) eqn:H
     end;
     try first [split; [reflexivity|congruence] | split; congruence];
     repeat match goal with
     | H : startswith _ _ = true |- _ => apply startswith_strip in H as [? H]
     end; subst; simpl in *; congruence|]).
  now apply elem_of_nil in Hg.
Qed.

(** X13. [_one_hot_columns] has exactly the four group keys; under each it
    files, in schema order, exactly the columns that start with the key and
    an underscore; and no column is filed under two keys. *)
Theorem one_hot_columns_partition : forall self,
  (forall g, is_Some (_one_hot_columns self !! g) <-> g ∈ group_names) /\
  (forall g cols, _one_hot_columns self !! g = Some cols ->
     cols = filter (fun c => startswith c (g +:+ "_") = true)
              (feature_names self)) /\
  (forall g1 g2 cols1 cols2 c,
     _one_hot_columns self !! g1 = Some cols1 ->
     _one_hot_columns self !! g2 = Some cols2 ->
     c ∈ cols1 -> c ∈ cols2 -> g1 = g2).
Proof.
  intros self. split; [|split].
  - intros g. rewrite one_hot_fold_lookup. case_bool_decide; split; eauto.
    + intros [? ?]. discriminate.
    + contradiction.
  - intros g cols. rewrite one_hot_fold_lookup.
    case_bool_decide as Hg; [|discriminate]. intros [= <-].
    apply list_filter_iff. intros c. now apply group_of_prefix.
  - intros g1 g2 cols1 cols2 c. rewrite !one_hot_fold_lookup.
    repeat case_bool_decide; try discriminate. intros [= <-] [= <-].
    rewrite !list_elem_of_filter. intros [H1 _] [H2 _]. congruence.
Qed.

(** ** The further properties at concrete inputs *)

Lemma numeric_columns_copied_witness :
  exists df,
    @build_feature_vector test_env default_model {["person_age" := VInt 30]}
    = Ok df /\
    "person_age" ∈ numeric_keys /\
    feature_names default_model !! 0 = Some "person_age" /\
    (forall v, ({["person_age" := VInt 30]} : record) !! "person_age" = Some v ->
       exists f, @py_float test_env v = Ok f /\
                 List.hd [] (rows df) !! 0 = Some f) /\
    (({["person_age" := VInt 30]} : record) !! "person_age" = None ->
     List.hd [] (rows df) !! 0 = Some 0%float).
Proof.
  eexists. split; [vm_compute; reflexivity|].
  split; [unfold numeric_keys; set_solver|]. split; [reflexivity|].
  apply (@numeric_columns_copied test_env default_model
           {["person_age" := VInt 30]} _ 0 "person_age");
    [vm_compute; reflexivity | unfold numeric_keys; set_solver | reflexivity].
Defined.

Lemma region_not_numeric : "region" ∉ numeric_keys.
Proof.
  unfold numeric_keys. intros Hk.
  repeat (apply elem_of_cons in Hk as [Hk|Hk]; [discriminate|]).
  now apply elem_of_nil in Hk.
Qed.

Lemma unknown_columns_zero_witness :
  exists df,
    @build_feature_vector test_env region_model {["region" := VInt 7]} = Ok df /\
    feature_names region_model !! 1 = Some "region" /\
    ("region" ∉ numeric_keys) /\ group_of "region" = None /\
    List.hd [] (rows df) !! 1 = Some 0%float.
Proof.
  eexists. split; [vm_compute; reflexivity|]. split; [reflexivity|].
  split; [exact region_not_numeric|]. split; [reflexivity|].
  apply (@unknown_columns_zero test_env region_model {["region" := VInt 7]}
           _ 1 "region");
    [vm_compute; reflexivity | reflexivity | exact region_not_numeric
    | reflexivity].
Defined.

Lemma indicator_cell_witness :
  exists df,
    @build_feature_vector test_env default_model {["loan_grade" := VStr "b"]}
    = Ok df /\
    feature_names default_model !! 17 = Some "loan_grade_B" /\
    group_of "loan_grade_B" = Some "loan_grade" /\
    List.hd [] (rows df) !! 17
    = Some (if @selects test_env {["loan_grade" := VStr "b"]} "loan_grade"
                 "loan_grade_B"
            then 1%float else 0%float).
Proof.
  eexists. split; [vm_compute; reflexivity|]. split; [reflexivity|].
  split; [reflexivity|].
  apply (@indicator_cell test_env default_model {["loan_grade" := VStr "b"]}
           _ 17 "loan_grade_B" "loan_grade");
    [vm_compute; reflexivity | reflexivity | reflexivity].
Defined.

Lemma grade_case_numeric :
  forall k, k ∈ numeric_keys ->
    ({["loan_grade" := VStr "b"]} : record) !! k
    = ({["loan_grade" := VStr "B"]} : record) !! k.
Proof.
  intros k Hk. unfold numeric_keys in Hk.
  repeat (apply elem_of_cons in Hk as [->|Hk]; [reflexivity|]).
  now apply elem_of_nil in Hk.
Qed.

Lemma grade_case_category :
  forall g, g ∈ group_names ->
    @category_value test_env {["loan_grade" := VStr "b"]} g
    = @category_value test_env {["loan_grade" := VStr "B"]} g.
Proof.
  intros g Hg. unfold group_names in Hg.
  repeat (apply elem_of_cons in Hg as [->|Hg]; [vm_compute; reflexivity|]).
  now apply elem_of_nil in Hg.
Qed.

Lemma build_feature_vector_case_insensitive_witness :
  (forall k, k ∈ numeric_keys ->
     ({["loan_grade" := VStr "b"]} : record) !! k
     = ({["loan_grade" := VStr "B"]} : record) !! k) /\
  (forall g, g ∈ group_names ->
     @category_value test_env {["loan_grade" := VStr "b"]} g
     = @category_value test_env {["loan_grade" := VStr "B"]} g) /\
  @build_feature_vector test_env default_model {["loan_grade" := VStr "b"]}
  = @build_feature_vector test_env default_model {["loan_grade" := VStr "B"]}.
Proof.
  split; [exact grade_case_numeric|]. split; [exact grade_case_category|].
  apply (@build_feature_vector_case_insensitive test_env default_model
           {["loan_grade" := VStr "b"]} {["loan_grade" := VStr "B"]}
           grade_case_numeric grade_case_category).
Defined.

Lemma background_numeric_ranges_witness :
  exists bg,
    @_make_background test_env default_model (Some 2%Z) = Ok bg /\
    ("person_age", (18, 90)%float) ∈ sample_ranges /\
    feature_names default_model !! 0 = Some "person_age" /\
    Forall (fun row => exists x, row !! 0 = Some x /\ within 18 90 x) (rows bg).
Proof.
  eexists. split; [vm_compute; reflexivity|].
  split; [unfold sample_ranges; set_solver|]. split; [reflexivity|].
  apply (@background_numeric_ranges test_env default_model (Some 2%Z) _ 0
           "person_age" 18%float 90%float);
    [vm_compute; reflexivity | unfold sample_ranges; set_solver | reflexivity].
Defined.

Lemma explain_shap_length_mismatch_witness :
  length [1%float] <> length (feature_names default_model) /\
  @explain_shap short_env default_model ideal_defaults
  = Raise (ValueError UnequalLengths).
Proof.
  split; [discriminate|].
  eapply (@explain_shap_length_mismatch short_env default_model ideal_defaults
            short_shap _ _ [1%float] 0.5%float []);
    [reflexivity | vm_compute; reflexivity | vm_compute; reflexivity
    | reflexivity | discriminate].
Defined.

Lemma explain_shap_both_fail_witness :
  @explain_shap failing_env default_model ideal_defaults
  = Raise (RuntimeError
             ("Failed to compute SHAP values: "
              +:+ @str_exn failing_env (LibraryError "Explainer"))).
Proof.
  eapply (@explain_shap_both_fail failing_env default_model ideal_defaults
            failing_shap _ (LibraryError "TreeExplainer")
            (LibraryError "Explainer"));
    [reflexivity | vm_compute; reflexivity | intros bg; reflexivity
    | reflexivity].
Defined.

Lemma predict_error_hides_prediction_witness :
  @predict_proba no_shap_env default_model ideal_defaults
  = Ok (0.25%float, 0%Z) /\
  @predict no_shap_env (Some default_model) (Json (VDict ideal_defaults))
  = (ErrorBody
       (@str_exn no_shap_env (RuntimeError
          "SHAP is not installed. Please install 'shap' to use explanations.")),
     500%Z).
Proof.
  split; [vm_compute; reflexivity|].
  apply (@predict_error_hides_prediction no_shap_env default_model
           ideal_defaults 0.25%float 0%Z);
    vm_compute; reflexivity.
Defined.

Lemma on_predict_risk_keeps_prediction_witness :
  exists row,
    @on_predict_risk no_shap_env default_model ideal_defaults
    = Ok [RiskHeading (fst (risk_category 0.25)) (snd (risk_category 0.25));
          ProbabilityMetric 0.25; PredictedClass 0; FeatureVector row;
          Info ("SHAP explanation not available: "
                +:+ @str_exn no_shap_env (RuntimeError
                      "SHAP is not installed. Please install 'shap' to use explanations."))].
Proof.
  apply (@on_predict_risk_keeps_prediction no_shap_env default_model
           ideal_defaults 0.25%float 0%Z);
    vm_compute; reflexivity.
Defined.

Lemma predict_non_dict_payload_witness :
  truthy (VInt 5) = true /\
  @predict test_env (Some default_model) (Json (VInt 5))
  = (ErrorBody (@str_exn test_env (AttributeError (VInt 5))), 500%Z).
Proof.
  split; [reflexivity|].
  apply (@predict_non_dict_payload test_env default_model (VInt 5));
    [reflexivity | discriminate].
Defined.

Lemma age_record_non_empty : ({["person_age" := VInt 30]} : record) <> ∅.
Proof. apply map_non_empty_singleton. Qed.

Lemma tagged_record_non_empty : tagged_record <> ∅.
Proof. apply insert_non_empty. Qed.

Lemma predict_ignores_unknown_keys_witness :
  tagged_record <> ∅ /\
  @predict test_env (Some default_model)
    (Json (VDict {["person_age" := VInt 30]}))
  = @predict test_env (Some default_model) (Json (VDict tagged_record)).
Proof.
  split; [exact tagged_record_non_empty|].
  apply (@predict_ignores_unknown_keys test_env default_model
           {["person_age" := VInt 30]} tagged_record
           age_record_non_empty tagged_record_non_empty tagged_record_agrees).
Defined.

Lemma predict_ok_consistent_witness :
  exists p,
    @predict test_env (Some default_model) (Json (VDict ideal_defaults))
    = (PredictionBody p, 200%Z) /\
    (200%Z = 200%Z /\
     exists m inputs,
       Some default_model = Some m /\
       Json (VDict ideal_defaults) = Json (VDict inputs) /\
       inputs <> ∅ /\
       @predict_proba test_env m inputs = Ok (r_probability p, r_prediction p) /\
       risk_category (r_probability p) = (r_risk_label p, r_risk_color p) /\
       r_prediction_probability p = r_probability p /\
       length (r_shap_values p) = min 20 (length (feature_names m))).
Proof.
  eexists. split; [vm_compute; reflexivity|].
  apply (@predict_ok_consistent test_env (Some default_model)
           (Json (VDict ideal_defaults))).
  vm_compute. reflexivity.
Defined.
